(** * OpenAIEmbeddingProvider (py/core/providers/embeddings/openai.py)

    A shallow embedding of the OpenAI embedding adapter: configuration
    validation in the constructor, assembly of the request keyword
    arguments, the synchronous and asynchronous request paths with their
    exception mapping, the rerank passthrough and tokenization.

    Python values are modelled as the code uses them: [None] as [option],
    dictionaries as [gmap], integers as [Z], raised exceptions as the
    [Raises] case of an outcome.  The remote client, the truncation helper
    of [.utils], the base-class initializer and the tokenizer are outside
    this file of the repository and are taken as parameters. *)

From Stdlib Require Import ZArith Ascii String List Sorted Lia.
From stdpp Require Import base option list gmap strings pretty.

Set Warnings "-clear-no-such-hyp".

Open Scope string_scope.
Open Scope Z_scope.

(** ** Python exceptions *)

(** The exception classes the module raises or catches.  [OtherException]
    stands for any other subclass of [Exception]; [OtherBaseException] for a
    class deriving from [BaseException] only (KeyboardInterrupt, SystemExit,
    asyncio.CancelledError). *)
Inductive ExcClass :=
| AuthenticationErrorC
| ValueErrorC
| KeyErrorC
| OtherException (name : string)
| OtherBaseException (name : string).

(** An exception instance: its class, [str(e)] and [__cause__]. *)
#[warnings="-register-all"]
Inductive PyExc :=
| mkExc (cls : ExcClass) (msg : string) (cause : option PyExc).

Definition exc_class (e : PyExc) : ExcClass :=
  match e with mkExc c _ _ => c end.

(** [str(e)] *)
Definition exc_str (e : PyExc) : string :=
  match e with mkExc _ m _ => m end.

Definition exc_cause (e : PyExc) : option PyExc :=
  match e with mkExc _ _ c => c end.

(** [isinstance(e, Exception)] *)
Definition isinstance_Exception (e : PyExc) : bool :=
  match exc_class e with
  | OtherBaseException _ => false
  | _ => true
  end.

(** [isinstance(e, AuthenticationError)] *)
Definition isinstance_AuthenticationError (e : PyExc) : bool :=
  match exc_class e with
  | AuthenticationErrorC => true
  | _ => false
  end.

(** [ValueError(msg)] *)
Definition ValueError (msg : string) : PyExc := mkExc ValueErrorC msg None.

(** [ValueError(msg)] raised [from e] *)
Definition ValueError_from (msg : string) (e : PyExc) : PyExc :=
  mkExc ValueErrorC msg (Some e).

(** Strings are Python strings whose code points are below 256, one
    character for each code point. *)

(** Whether [repr] leaves a character as it is: the printable ASCII
    characters and, above them, everything from 161 on but the soft hyphen
    173; control characters and the no-break space 160 are escaped. *)
Definition py_isprintable (a : ascii) : bool :=
  let n := N_of_ascii a in
  ((32 <=? n) && (n <? 127) || (161 <=? n) && negb (n =? 173))%N.

(** One lower-case hexadecimal digit. *)
Definition hex_digit (n : N) : ascii :=
  ascii_of_N (if (n <? 10)%N then 48 + n else 87 + n).

(** One character inside [repr(s)], [quote] being the enclosing quote. *)
Definition repr_char (quote a : ascii) : string :=
  let backslash := "092"%char in
  if bool_decide (a = quote) || bool_decide (a = backslash) then
    String backslash (String a EmptyString)
  else if bool_decide (a = "009"%char) then
    String backslash (String "t"%char EmptyString)
  else if bool_decide (a = "010"%char) then
    String backslash (String "n"%char EmptyString)
  else if bool_decide (a = "013"%char) then
    String backslash (String "r"%char EmptyString)
  else if py_isprintable a then String a EmptyString
  else
    String backslash
      (String "x"%char
         (String (hex_digit (N_of_ascii a / 16))
            (String (hex_digit (N_of_ascii a mod 16)) EmptyString))).

Fixpoint repr_chars (quote : ascii) (s : string) : string :=
  match s with
  | EmptyString => EmptyString
  | String a s' => repr_char quote a +:+ repr_chars quote s'
  end.

(** Whether the character occurs in the string. *)
Fixpoint str_has (c : ascii) (s : string) : bool :=
  match s with
  | EmptyString => false
  | String a s' => bool_decide (a = c) || str_has c s'
  end.

(** [repr(s)] of a string: in single quotes, unless the string holds a
    single quote and no double quote, then in double quotes. *)
Definition py_repr (s : string) : string :=
  let quote :=
    if str_has "039"%char s && negb (str_has "034"%char s)
    then "034"%char else "039"%char in
  String quote (repr_chars quote s +:+ String quote EmptyString).

(** [KeyError(key)]; [str] of a KeyError is the repr of the key. *)
Definition KeyError (key : string) : PyExc :=
  mkExc KeyErrorC (py_repr key) None.

(** ** Outcomes *)

(** The result of evaluating a Python expression: a value or a raised
    exception. *)
Inductive Outcome (A : Type) :=
| Returns (a : A)
| Raises (e : PyExc).

Arguments Returns {A} a.
Arguments Raises {A} e.

(** Sequencing: a raised exception propagates. *)
Global Instance Outcome_ret : MRet Outcome := λ A a, Returns a.

Global Instance Outcome_bind : MBind Outcome := λ A B k m,
  match m with
  | Returns a => k a
  | Raises e => Raises e
  end.

(** ** Python values carried in keyword arguments *)

(** [NOT_GIVEN] is the sentinel of [openai._types]; it is falsy. *)
Inductive PyVal :=
| VNone
| VBool (b : bool)
| VInt (z : Z)
| VStr (s : string)
| NOT_GIVEN.

Global Instance PyVal_eq_dec : EqDecision PyVal.
Proof. solve_decision. Defined.

(** Truthiness of a value, as [if v:] tests it. *)
Definition truthy (v : PyVal) : bool :=
  match v with
  | VNone => false
  | VBool b => b
  | VInt z => negb (bool_decide (z = 0))
  | VStr s => negb (bool_decide (s = ""))
  | NOT_GIVEN => false
  end.

(** Truthiness of an optional string: [None] and [""] are falsy. *)
Definition truthy_str (o : option string) : bool :=
  match o with
  | Some s => negb (bool_decide (s = ""))
  | None => false
  end.

(** Truthiness of an optional integer: [None] and [0] are falsy. *)
Definition truthy_int (o : option Z) : bool :=
  match o with
  | Some z => negb (bool_decide (z = 0))
  | None => false
  end.

(** ** String operations *)

(** [s.startswith(p)] *)
Fixpoint str_startswith (p s : string) : bool :=
  match p, s with
  | EmptyString, _ => true
  | String _ _, EmptyString => false
  | String a p', String b s' => bool_decide (a = b) && str_startswith p' s'
  end.

(** [sub in s] *)
Fixpoint str_contains (sub s : string) : bool :=
  str_startswith sub s ||
  match s with
  | EmptyString => false
  | String _ s' => str_contains sub s'
  end.

(** [s.split(sep)] for a one-character separator: the pieces between the
    occurrences of [sep], empty pieces kept; never the empty list. *)
Fixpoint str_split (sep : ascii) (s : string) : list string :=
  match s with
  | EmptyString => [EmptyString]
  | String a s' =>
      if bool_decide (a = sep) then EmptyString :: str_split sep s'
      else match str_split sep s' with
           | [] => [String a EmptyString]
           | piece :: rest => String a piece :: rest
           end
  end.

(** [max(l)] of a list of integers; [None] on the empty list, where Python
    raises ValueError. *)
Definition py_max (l : list Z) : option Z :=
  match l with
  | [] => None
  | x :: l' => Some (fold_left Z.max l' x)
  end.

(** [l[:stop]]: a negative [stop] counts from the end, and both ends are
    clamped to the list. *)
Definition slice_to {A} (l : list A) (stop : Z) : list A :=
  let n := Z.of_nat (length l) in
  let stop' := if stop <? 0 then Z.max 0 (stop + n) else Z.min stop n in
  take (Z.to_nat stop') l.

(** ** The static tables *)

Definition MODEL_TO_TOKENIZER : gmap string string :=
  <["text-embedding-ada-002" := "cl100k_base"]>
  (<["text-embedding-3-small" := "cl100k_base"]>
  (<["text-embedding-3-large" := "cl100k_base"]> ∅)).

Definition MODEL_TO_DIMENSIONS : gmap string (list Z) :=
  <["text-embedding-ada-002" := [1536]]>
  (<["text-embedding-3-small" := [512; 1536]]>
  (<["text-embedding-3-large" := [256; 1024; 3072]]> ∅)).

(** ** Configuration and provider objects *)

(** The fields of [EmbeddingConfig] the constructor reads. *)
Record EmbeddingConfig := {
  provider : option string;
  base_model : option string;
  base_dimension : option Z;
  rerank_model : option string
}.

(** An [OpenAI] client object of the openai library, by the two attributes
    it holds once built: the API key it sends and the base URL it calls.
    What they are for given constructor arguments is the library's
    business (the default URL when no base URL is given, a normalized
    one otherwise). *)
Record OpenAI := {
  api_key : string;
  base_url : string
}.

(** An [AsyncOpenAI] client object, likewise. *)
Record AsyncOpenAI := {
  async_api_key : string;
  async_base_url : string
}.

(** The attributes the constructor sets on [self]. *)
Record OpenAIEmbeddingProvider := {
  client : OpenAI;
  async_client : AsyncOpenAI;
  self_base_model : string;
  self_base_dimension : option Z
}.

(** [os.getenv(name)] over the process environment. *)
Definition os_getenv (environ : gmap string string) (name : string) : option string :=
  environ !! name.

(** The value of [self.base_model] the constructor computes:
    the part after the last [/] when the configured name contains
    [openai/], the configured name otherwise. *)
Definition normalized_base_model (config : EmbeddingConfig) : option string :=
  match base_model config with
  | Some bm =>
      if truthy_str (Some bm) && str_contains "openai/" bm
      then last (str_split "/"%char bm)
      else Some bm
  | None => None
  end.

Section Constructor.

(** [EmbeddingProvider.__init__], the base-class initializer, is not part
    of this file. *)
Variable super_init : EmbeddingConfig → Outcome unit.

(** [OpenAI(api_key=..., base_url=...)] and
    [AsyncOpenAI(api_key=..., base_url=...)], the client constructors of the
    openai library: each returns a client or raises (a malformed base URL
    is refused with an exception of the library's own). *)
Variable new_OpenAI : option string → option string → Outcome OpenAI.
Variable new_AsyncOpenAI :
  option string → option string → Outcome AsyncOpenAI.

(** [OpenAIEmbeddingProvider.__init__(self, config)] *)
Definition __init__ (environ : gmap string string) (config : EmbeddingConfig)
  : Outcome OpenAIEmbeddingProvider :=
  _ ← super_init config;
  if negb (truthy_str (provider config)) then
    Raises (ValueError
      "Must set provider in order to initialize OpenAIEmbeddingProvider.")
  else if negb (bool_decide (provider config = Some "openai")) then
    Raises (ValueError
      "OpenAIEmbeddingProvider must be initialized with provider `openai`.")
  else if negb (truthy_str (os_getenv environ "OPENAI_EMBEDDING_API_KEY")) then
    Raises (ValueError
      "Must set OPENAI_EMBEDDING_API_KEY in order to initialize OpenAIEmbeddingProvider.")
  else
    let api_key := os_getenv environ "OPENAI_EMBEDDING_API_KEY" in
    let base_url := os_getenv environ "OPENAI_EMBEDDING_API_BASE" in
    client ← new_OpenAI api_key base_url;
    async_client ← new_AsyncOpenAI api_key base_url;
    if truthy_str (rerank_model config) then
      Raises (ValueError
        "OpenAIEmbeddingProvider does not support separate reranking.")
    else
      let base_model := normalized_base_model config in
      let base_dimension := base_dimension config in
      match base_model with
      | None =>
          Raises (ValueError
            "Must set base_model in order to initialize OpenAIEmbeddingProvider.")
      | Some m =>
          if negb (truthy_str (Some m)) then
            Raises (ValueError
              "Must set base_model in order to initialize OpenAIEmbeddingProvider.")
          else if negb (bool_decide (is_Some (MODEL_TO_TOKENIZER !! m))) then
            Raises (ValueError
              ("OpenAI embedding model " +:+ m +:+ " not supported."))
          else
            match MODEL_TO_DIMENSIONS !! m with
            | None => Raises (KeyError m)
            | Some dims =>
                match base_dimension with
                | Some d =>
                    if truthy_int (Some d) then
                      if negb (bool_decide (d ∈ dims)) then
                        Raises (ValueError
                          ("Dimensions " +:+ pretty d +:+ " for " +:+ m
                           +:+ " are not supported"))
                      else
                        Returns {| client := client;
                                   async_client := async_client;
                                   self_base_model := m;
                                   self_base_dimension := Some d |}
                    else
                      match py_max dims with
                      | None =>
                          Raises (ValueError "max() arg is an empty sequence")
                      | Some largest =>
                          Returns {| client := client;
                                     async_client := async_client;
                                     self_base_model := m;
                                     self_base_dimension := Some largest |}
                      end
                | None =>
                    match py_max dims with
                    | None =>
                        Raises (ValueError "max() arg is an empty sequence")
                    | Some largest =>
                        Returns {| client := client;
                                   async_client := async_client;
                                   self_base_model := m;
                                   self_base_dimension := Some largest |}
                    end
                end
            end
      end.

End Constructor.

(** ** Request parameters *)

(** [self._get_dimensions()]: the sentinel for the ada model, otherwise
    [self.base_dimension or MODEL_TO_DIMENSIONS[self.base_model][-1]]. *)
Definition _get_dimensions (self : OpenAIEmbeddingProvider) : Outcome PyVal :=
  if bool_decide (self_base_model self = "text-embedding-ada-002") then
    Returns NOT_GIVEN
  else if truthy_int (self_base_dimension self) then
    Returns (from_option VInt VNone (self_base_dimension self))
  else
    match MODEL_TO_DIMENSIONS !! self_base_model self with
    | None => Raises (KeyError (self_base_model self))
    | Some dims =>
        match last dims with
        | None => Raises (mkExc (OtherException "IndexError")
                            "list index out of range" None)
        | Some d => Returns (VInt d)
        end
    end.

(** [self._get_embedding_kwargs] applied to keyword arguments: the two
    defaults merged with
    the caller's, which win on a shared key. *)
Definition _get_embedding_kwargs (self : OpenAIEmbeddingProvider)
    (kwargs : gmap string PyVal) : Outcome (gmap string PyVal) :=
  dimensions ← _get_dimensions self;
  Returns (kwargs ∪ (<["model" := VStr (self_base_model self)]>
                     (<["dimensions" := dimensions]> ∅))).

(** ** Tasks, responses and observable calls *)

(** [EmbeddingProvider.Step] *)
Inductive Step := BASE | RERANK.

(** A task dictionary: the keys [texts], [stage] and [kwargs], each of
    which may be absent. *)
Record Task := {
  texts : option (list string);
  stage : option Step;
  kwargs : option (gmap string PyVal)
}.

(** The calls a request path makes to the outside, in order. *)
Inductive Event :=
| TruncateCall (input : list string) (model : PyVal)
| CreateCall (c : OpenAI) (input : list string) (params : gmap string PyVal)
| AsyncCreateCall (c : AsyncOpenAI) (input : list string)
    (params : gmap string PyVal)
| LogError (msg : string).

(** A computation that records its outside calls and ends in an outcome. *)
Definition Exec (A : Type) : Type := (list Event * Outcome A)%type.

Definition calls {A} (m : Exec A) : list Event := fst m.
Definition outcome {A} (m : Exec A) : Outcome A := snd m.

Global Instance Exec_ret : MRet Exec := λ A a, ([], Returns a).

Global Instance Exec_bind : MBind Exec := λ A B k m,
  match m with
  | (log, Returns a) => let r := k a in ((log ++ fst r)%list, snd r)
  | (log, Raises e) => (log, Raises e)
  end.

(** An expression evaluated without outside calls. *)
Definition pure {A} (o : Outcome A) : Exec A := ([], o).

(** An outside call: the event is recorded, then the callee's outcome. *)
Definition call {A} (ev : Event) (o : Outcome A) : Exec A := ([ev], o).

Definition raise {A} (e : PyExc) : Exec A := ([], Raises e).

(** [try: body  except ...: handler]: [handler e] is [None] when no except
    clause matches [e], which then propagates. *)
Definition try_except {A} (body : Exec A) (handler : PyExc → option (Exec A))
  : Exec A :=
  match body with
  | (log, Returns a) => (log, Returns a)
  | (log, Raises e) =>
      match handler e with
      | Some h => ((log ++ fst h)%list, snd h)
      | None => (log, Raises e)
      end
  end.

(** [with contextlib.suppress(Exception): x = body]: when [body] raises an
    [Exception] the assignment does not happen and [x] keeps [current]. *)
Definition suppress_Exception {A} (body : Exec A) (current : A) : Exec A :=
  match body with
  | (log, Returns a) => (log, Returns a)
  | (log, Raises e) =>
      if isinstance_Exception e then (log, Returns current)
      else (log, Raises e)
  end.

(** The two except clauses shared by both request paths, in source order. *)
Definition except_clauses {A} (e : PyExc) : option (Exec A) :=
  if isinstance_AuthenticationError e then
    Some (raise (ValueError_from
      "Invalid OpenAI API key provided. Please check your OPENAI_API_KEY environment variable."
      e))
  else if isinstance_Exception e then
    let error_msg := "Error getting embeddings: " +:+ exc_str e in
    Some (_ ← call (LogError error_msg) (Returns tt);
          raise (ValueError_from error_msg e))
  else None.

Section Requests.

(** The element type of an embedding vector. *)
Variable float : Type.

(** One item of [response.data]. *)
Record Embedding := { embedding : list float }.

(** The response of [embeddings.create]. *)
Record CreateEmbeddingResponse := { data : list Embedding }.

(** [truncate_texts_to_token_limit] of [.utils] is not part of this file. *)
Variable truncate_texts_to_token_limit :
  list string → PyVal → Outcome (list string).

(** [client.embeddings.create(input=texts, **kwargs)] on the synchronous
    client, argument binding included. *)
Variable embeddings_create :
  OpenAI → list string → gmap string PyVal → Outcome CreateEmbeddingResponse.

(** [await async_client.embeddings.create(input=texts, **kwargs)] on the
    asynchronous client. *)
Variable async_embeddings_create :
  AsyncOpenAI → list string → gmap string PyVal
  → Outcome CreateEmbeddingResponse.

(** [task["texts"]] *)
Definition task_texts (task : Task) : Outcome (list string) :=
  match texts task with
  | Some t => Returns t
  | None => Raises (KeyError "texts")
  end.

(** [task.get("kwargs", {})] *)
Definition task_kwargs (task : Task) : gmap string PyVal :=
  default ∅ (kwargs task).

(** [kwargs.get("model")] *)
Definition kwargs_get_model (kw : gmap string PyVal) : PyVal :=
  default VNone (kw !! "model").

(** [await self._execute_task(task)] *)
Definition _execute_task (self : OpenAIEmbeddingProvider) (task : Task)
  : Exec (list (list float)) :=
  texts ← pure (task_texts task);
  kwargs ← pure (_get_embedding_kwargs self (task_kwargs task));
  try_except
    (texts ← (if truthy (kwargs_get_model kwargs) then
                suppress_Exception
                  (call (TruncateCall texts (kwargs_get_model kwargs))
                     (truncate_texts_to_token_limit texts
                        (kwargs_get_model kwargs)))
                  texts
              else mret texts);
     response ← call (AsyncCreateCall (async_client self) texts kwargs)
                  (async_embeddings_create (async_client self) texts kwargs);
     mret (embedding <$> data response))
    except_clauses.

(** [self._execute_task_sync(task)] *)
Definition _execute_task_sync (self : OpenAIEmbeddingProvider) (task : Task)
  : Exec (list (list float)) :=
  texts ← pure (task_texts task);
  kwargs ← pure (_get_embedding_kwargs self (task_kwargs task));
  try_except
    (texts ← (if truthy (kwargs_get_model kwargs) then
                suppress_Exception
                  (call (TruncateCall texts (kwargs_get_model kwargs))
                     (truncate_texts_to_token_limit texts
                        (kwargs_get_model kwargs)))
                  texts
              else mret texts);
     response ← call (CreateCall (client self) texts kwargs)
                  (embeddings_create (client self) texts kwargs);
     mret (embedding <$> data response))
    except_clauses.

End Requests.

Arguments embedding {float} _.
Arguments data {float} _.

(** ** Reranking *)

(** [self.rerank(query, results, stage, limit)]; an omitted [stage] or
    [limit] is [None] and takes its default. *)
Definition rerank {R} (self : OpenAIEmbeddingProvider) (query : string)
    (results : list R) (stage : option Step) (limit : option Z) : list R :=
  let stage := default RERANK stage in
  let limit := default 10 limit in
  slice_to results limit.

(** [await self.arerank(query, results, stage, limit)] *)
Definition arerank {R} (self : OpenAIEmbeddingProvider) (query : string)
    (results : list R) (stage : option Step) (limit : option Z) : list R :=
  let stage := default RERANK stage in
  let limit := default 10 limit in
  slice_to results limit.

(** ** Tokenization *)

Section Tokenizer.

(** A tiktoken encoding object. *)
Variable Encoding : Type.

(** [tiktoken.get_encoding(name)] *)
Variable tiktoken_get_encoding : string → Outcome Encoding.

(** [encoding.encode(text)] *)
Variable encode : Encoding → string → Outcome (list Z).

(** [self.tokenize_string(text, model)] *)
Definition tokenize_string (self : OpenAIEmbeddingProvider)
    (text model : string) : Outcome (list Z) :=
  match MODEL_TO_TOKENIZER !! model with
  | None =>
      Raises (ValueError
        ("OpenAI embedding model " +:+ model +:+ " not supported."))
  | Some name =>
      encoding ← tiktoken_get_encoding name;
      encode encoding text
  end.

(** Modelled from the spec: the tokenizer behind [tiktoken.get_encoding]
    and [encoding.encode] is a third-party library outside src/; of it the
    spec says that tokenization returns a non-empty sequence of integers
    for non-empty input text. *)
Definition encoder_nonempty (encoding : Encoding) : Prop :=
  ∀ text, text ≠ "" →
    ∃ tokens, encode encoding text = Returns tokens ∧ tokens ≠ [].

End Tokenizer.

(** ** The checks ahead of the model checks *)

(** The constructor's checks that precede those on the model and the
    dimension: the base-class initializer returns, the provider is
    [openai], the API key is in the environment and no rerank model is
    configured. *)
Definition earlier_checks_pass (super_init : EmbeddingConfig → Outcome unit)
    (environ : gmap string string) (config : EmbeddingConfig) : Prop :=
  super_init config = Returns tt
  ∧ provider config = Some "openai"
  ∧ truthy_str (os_getenv environ "OPENAI_EMBEDDING_API_KEY") = true
  ∧ truthy_str (rerank_model config) = false.

(** ** What a request path sends *)

(** The texts handed to [embeddings.create], read off the [try] block:
    the truncated texts when the model of [params] is truthy and the
    truncation returns, the original texts when the model is falsy or the
    truncation raises an [Exception]; [None] when the truncation raises
    past the [suppress], so that no request is made. *)
Definition sent_texts
    (truncate_texts_to_token_limit : list string → PyVal → Outcome (list string))
    (input : list string) (params : gmap string PyVal) : option (list string) :=
  if truthy (kwargs_get_model params) then
    match truncate_texts_to_token_limit input (kwargs_get_model params) with
    | Returns truncated => Some truncated
    | Raises e => if isinstance_Exception e then Some input else None
    end
  else Some input.

(** An outside call with the client object left out. *)
Inductive Request :=
| Truncate (input : list string) (model : PyVal)
| Create (input : list string) (params : gmap string PyVal)
| Log (msg : string).

Definition request_of (ev : Event) : Request :=
  match ev with
  | TruncateCall i m => Truncate i m
  | CreateCall _ i p => Create i p
  | AsyncCreateCall _ i p => Create i p
  | LogError m => Log m
  end.

Definition is_log (r : Request) : bool :=
  match r with
  | Log _ => true
  | _ => false
  end.

(** The truncation and create calls of a run, clients and log lines left
    out. *)
Definition requests (evs : list Event) : list Request :=
  filter (λ r, is_log r = false) (request_of <$> evs).

(** ** Sample inputs *)

Module Sample.

Definition environ : gmap string string :=
  <["OPENAI_EMBEDDING_API_KEY" := "sk-test"]> ∅.

Definition super_init (config : EmbeddingConfig) : Outcome unit := Returns tt.

Definition config_large : EmbeddingConfig :=
  {| provider := Some "openai";
     base_model := Some "openai/text-embedding-3-large";
     base_dimension := None;
     rerank_model := None |}.

Definition config_ada : EmbeddingConfig :=
  {| provider := Some "openai";
     base_model := Some "text-embedding-ada-002";
     base_dimension := Some 1536;
     rerank_model := None |}.

Definition config_small_512 : EmbeddingConfig :=
  {| provider := Some "openai";
     base_model := Some "text-embedding-3-small";
     base_dimension := Some 512;
     rerank_model := None |}.

Definition config_small_7 : EmbeddingConfig :=
  {| provider := Some "openai";
     base_model := Some "text-embedding-3-small";
     base_dimension := Some 7;
     rerank_model := None |}.

Definition config_small_0 : EmbeddingConfig :=
  {| provider := Some "openai";
     base_model := Some "text-embedding-3-small";
     base_dimension := Some 0;
     rerank_model := None |}.

Definition config_no_provider : EmbeddingConfig :=
  {| provider := None;
     base_model := Some "text-embedding-3-small";
     base_dimension := None;
     rerank_model := None |}.

(** Client constructors that accept every argument: the key as given,
    the base URL as given or else the library's default. *)
Definition new_OpenAI (api_key base_url : option string) : Outcome OpenAI :=
  Returns {| api_key := default "" api_key;
             base_url := default "https://api.openai.com/v1/" base_url |}.

Definition new_AsyncOpenAI (api_key base_url : option string)
  : Outcome AsyncOpenAI :=
  Returns {| async_api_key := default "" api_key;
             async_base_url :=
               default "https://api.openai.com/v1/" base_url |}.

Definition the_client : OpenAI :=
  {| api_key := "sk-test"; base_url := "https://api.openai.com/v1/" |}.

Definition the_async_client : AsyncOpenAI :=
  {| async_api_key := "sk-test";
     async_base_url := "https://api.openai.com/v1/" |}.

(** The provider [__init__] builds from [config_large]. *)
Definition provider_large : OpenAIEmbeddingProvider :=
  {| client := the_client;
     async_client := the_async_client;
     self_base_model := "text-embedding-3-large";
     self_base_dimension := Some 3072 |}.

(** The provider [__init__] builds from [config_ada]. *)
Definition provider_ada : OpenAIEmbeddingProvider :=
  {| client := the_client;
     async_client := the_async_client;
     self_base_model := "text-embedding-ada-002";
     self_base_dimension := Some 1536 |}.

(** A truncation that keeps the first three characters of each text. *)
Definition truncate (input : list string) (model : PyVal)
  : Outcome (list string) :=
  Returns ((λ s, substring 0 3 s) <$> input).

(** A client that answers each text with a one-component vector. *)
Definition create {C} (c : C) (input : list string)
    (params : gmap string PyVal) : Outcome (CreateEmbeddingResponse Z) :=
  Returns {| data := (λ s, {| embedding := [Z.of_nat (String.length s)] |})
                       <$> input |}.

Definition unauthorized : PyExc :=
  mkExc AuthenticationErrorC "Error code: 401" None.

Definition timeout : PyExc :=
  mkExc (OtherException "APITimeoutError") "Request timed out." None.

Definition cancelled : PyExc :=
  mkExc (OtherBaseException "CancelledError") "" None.

(** A client whose call is cancelled. *)
Definition create_cancelled {C} (c : C) (input : list string)
    (params : gmap string PyVal) : Outcome (CreateEmbeddingResponse Z) :=
  Raises cancelled.

(** A client that rejects the API key. *)
Definition create_unauthorized {C} (c : C) (input : list string)
    (params : gmap string PyVal) : Outcome (CreateEmbeddingResponse Z) :=
  Raises unauthorized.

(** A client whose connection times out. *)
Definition create_timeout {C} (c : C) (input : list string)
    (params : gmap string PyVal) : Outcome (CreateEmbeddingResponse Z) :=
  Raises timeout.

Definition task_plain : Task :=
  {| texts := Some ["hello world"]; stage := Some BASE; kwargs := Some ∅ |}.

(** A task whose keyword arguments name another model. *)
Definition task_other_model : Task :=
  {| texts := Some ["hello world"];
     stage := Some BASE;
     kwargs := Some (<["model" := VStr "text-embedding-3-small"]> ∅) |}.

(** Keyword arguments that carry their own dimensions. *)
Definition kwargs_dimensions : gmap string PyVal :=
  <["dimensions" := VInt 512]> ∅.

(** The request parameters of [provider_ada] for [task_plain]. *)
Definition params_ada : gmap string PyVal :=
  ∅ ∪ (<["model" := VStr "text-embedding-ada-002"]>
       (<["dimensions" := NOT_GIVEN]> ∅)).

(** The request parameters of [provider_large] for [task_plain]. *)
Definition params_large : gmap string PyVal :=
  ∅ ∪ (<["model" := VStr "text-embedding-3-large"]>
       (<["dimensions" := VInt 3072]> ∅)).

(** The request parameters of [provider_large] for [task_other_model]. *)
Definition params_other_model : gmap string PyVal :=
  (<["model" := VStr "text-embedding-3-small"]> ∅)
  ∪ (<["model" := VStr "text-embedding-3-large"]>
     (<["dimensions" := VInt 3072]> ∅)).

Definition eleven : list Z := [1; 2; 3; 4; 5; 6; 7; 8; 9; 10; 11].

(** A toy tokenizer: one token per character. *)
Definition get_encoding (name : string) : Outcome string := Returns name.

Definition encode (encoding : string) (text : string) : Outcome (list Z) :=
  Returns ((λ a, Z.of_nat (nat_of_ascii a)) <$> list_ascii_of_string text).

End Sample.

(** ** The embedding entry points *)

Global Instance Step_eq_dec : EqDecision Step.
Proof. solve_decision. Defined.

(** [IndexError] of a list subscript. *)
Definition IndexError : PyExc :=
  mkExc (OtherException "IndexError") "list index out of range" None.

(** [result[0]] *)
Definition getitem_0 {A} (result : list A) : Exec A :=
  match result with
  | x :: _ => mret x
  | [] => raise IndexError
  end.

Section EntryPoints.

Variable float : Type.

(** [self._execute_with_backoff_async(task)] and
    [self._execute_with_backoff_sync(task)], the retry wrappers of the base
    class, are not part of this file. *)
Variable _execute_with_backoff_async :
  OpenAIEmbeddingProvider → Task → Exec (list (list float)).
Variable _execute_with_backoff_sync :
  OpenAIEmbeddingProvider → Task → Exec (list (list float)).

(** [await self.async_get_embedding(text, stage, **kwargs)]; an omitted
    [stage] is [None] and takes its default. *)
Definition async_get_embedding (self : OpenAIEmbeddingProvider)
    (text : string) (stage : option Step) (kwargs : gmap string PyVal)
  : Exec (list float) :=
  let stage := default BASE stage in
  if bool_decide (stage ≠ BASE) then
    raise (ValueError "OpenAIEmbeddingProvider only supports search stage.")
  else
    let task := {| texts := Some [text];
                   stage := Some stage;
                   kwargs := Some kwargs |} in
    result ← _execute_with_backoff_async self task;
    getitem_0 result.

(** [self.get_embedding(text, stage, **kwargs)] *)
Definition get_embedding (self : OpenAIEmbeddingProvider)
    (text : string) (stage : option Step) (kwargs : gmap string PyVal)
  : Exec (list float) :=
  let stage := default BASE stage in
  if bool_decide (stage ≠ BASE) then
    raise (ValueError "OpenAIEmbeddingProvider only supports search stage.")
  else
    let task := {| texts := Some [text];
                   stage := Some stage;
                   kwargs := Some kwargs |} in
    result ← _execute_with_backoff_sync self task;
    getitem_0 result.

(** [await self.async_get_embeddings(texts, stage, **kwargs)] *)
Definition async_get_embeddings (self : OpenAIEmbeddingProvider)
    (texts : list string) (stage : option Step) (kwargs : gmap string PyVal)
  : Exec (list (list float)) :=
  let stage := default BASE stage in
  if bool_decide (stage ≠ BASE) then
    raise (ValueError "OpenAIEmbeddingProvider only supports search stage.")
  else
    let task := {| texts := Some texts;
                   stage := Some stage;
                   kwargs := Some kwargs |} in
    _execute_with_backoff_async self task.

(** [self.get_embeddings(texts, stage, **kwargs)] *)
Definition get_embeddings (self : OpenAIEmbeddingProvider)
    (texts : list string) (stage : option Step) (kwargs : gmap string PyVal)
  : Exec (list (list float)) :=
  let stage := default BASE stage in
  if bool_decide (stage ≠ BASE) then
    raise (ValueError "OpenAIEmbeddingProvider only supports search stage.")
  else
    let task := {| texts := Some texts;
                   stage := Some stage;
                   kwargs := Some kwargs |} in
    _execute_with_backoff_sync self task.

End EntryPoints.

(** ** Reading a run *)

Definition is_truncate_call (ev : Event) : bool :=
  match ev with
  | TruncateCall _ _ => true
  | _ => false
  end.

Definition is_create_call (ev : Event) : bool :=
  match ev with
  | CreateCall _ _ _ | AsyncCreateCall _ _ _ => true
  | _ => false
  end.

Definition is_log_call (ev : Event) : bool :=
  match ev with
  | LogError _ => true
  | _ => false
  end.

(** The place of a call in a run: truncation, request, log line. *)
Definition call_rank (ev : Event) : nat :=
  match ev with
  | TruncateCall _ _ => 0%nat
  | CreateCall _ _ _ | AsyncCreateCall _ _ _ => 1%nat
  | LogError _ => 2%nat
  end.

(** A configuration with another model name, the other fields kept. *)
Definition with_base_model (config : EmbeddingConfig) (name : option string)
  : EmbeddingConfig :=
  {| provider := provider config;
     base_model := name;
     base_dimension := base_dimension config;
     rerank_model := rerank_model config |}.

(** ** More sample inputs *)

Module SampleCalls.

(** A retry wrapper that makes a single synchronous attempt. *)
Definition backoff_sync (self : OpenAIEmbeddingProvider) (task : Task)
  : Exec (list (list Z)) :=
  _execute_task_sync Z Sample.truncate Sample.create self task.

(** A retry wrapper that makes a single asynchronous attempt. *)
Definition backoff_async (self : OpenAIEmbeddingProvider) (task : Task)
  : Exec (list (list Z)) :=
  _execute_task Z Sample.truncate Sample.create self task.

(** A provider object whose model is in no table and whose dimension is
    not set, as no constructor call produces. *)
Definition provider_unknown : OpenAIEmbeddingProvider :=
  {| client := Sample.the_client;
     async_client := Sample.the_async_client;
     self_base_model := "gpt-4";
     self_base_dimension := None |}.

(** A provider object for the small model with the dimension unset. *)
Definition provider_small_unset : OpenAIEmbeddingProvider :=
  {| client := Sample.the_client;
     async_client := Sample.the_async_client;
     self_base_model := "text-embedding-3-small";
     self_base_dimension := Some 0 |}.

Definition config_unsupported : EmbeddingConfig :=
  {| provider := Some "openai";
     base_model := Some "gpt-4";
     base_dimension := None;
     rerank_model := None |}.

Definition config_rerank : EmbeddingConfig :=
  {| provider := Some "openai";
     base_model := Some "text-embedding-3-small";
     base_dimension := None;
     rerank_model := Some "rerank-english-v2.0" |}.

(** A task whose keyword arguments blank out the model. *)
Definition task_no_model : Task :=
  {| texts := Some ["hello world"];
     stage := Some BASE;
     kwargs := Some (<["model" := VStr ""]> ∅) |}.

Definition params_no_model : gmap string PyVal :=
  (<["model" := VStr ""]> ∅)
  ∪ (<["model" := VStr "text-embedding-3-large"]>
     (<["dimensions" := VInt 3072]> ∅)).

(** An environment whose base URL is malformed. *)
Definition environ_bad_url : gmap string string :=
  <["OPENAI_EMBEDDING_API_BASE" := "http://[::1"]> Sample.environ.

Definition invalid_url : PyExc :=
  mkExc (OtherException "InvalidURL") "Invalid IPv6 address" None.

(** A client constructor that refuses the base URL of [environ_bad_url]. *)
Definition new_OpenAI_strict (api_key base_url : option string)
  : Outcome OpenAI :=
  if bool_decide (base_url = Some "http://[::1") then Raises invalid_url
  else Sample.new_OpenAI api_key base_url.

(** A truncation that is cancelled. *)
Definition truncate_cancelled (input : list string) (model : PyVal)
  : Outcome (list string) :=
  Raises Sample.cancelled.

End SampleCalls.

(** * Properties *)

(** ** The static tables *)

Lemma MODEL_TO_TOKENIZER_lookup (m tokenizer : string) :
  MODEL_TO_TOKENIZER !! m = Some tokenizer →
  (m = "text-embedding-ada-002" ∨ m = "text-embedding-3-small"
   ∨ m = "text-embedding-3-large") ∧ tokenizer = "cl100k_base".
Proof.
  unfold MODEL_TO_TOKENIZER.
  rewrite !lookup_insert_Some, lookup_empty.
  intros [[<- <-]|[_ [[<- <-]|[_ [[<- <-]|[_ ?]]]]]]; try done; auto.
Qed.

Lemma MODEL_TO_DIMENSIONS_lookup (m : string) (dims : list Z) :
  MODEL_TO_DIMENSIONS !! m = Some dims →
  (m = "text-embedding-ada-002" ∧ dims = [1536])
  ∨ (m = "text-embedding-3-small" ∧ dims = [512; 1536])
  ∨ (m = "text-embedding-3-large" ∧ dims = [256; 1024; 3072]).
Proof.
  unfold MODEL_TO_DIMENSIONS.
  rewrite !lookup_insert_Some, lookup_empty.
  intros [[<- <-]|[_ [[<- <-]|[_ [[<- <-]|[_ ?]]]]]]; try done; auto.
Qed.

(** Both tables have the same keys. *)
Lemma tables_same_keys (m : string) :
  is_Some (MODEL_TO_TOKENIZER !! m) ↔ is_Some (MODEL_TO_DIMENSIONS !! m).
Proof.
  unfold MODEL_TO_TOKENIZER, MODEL_TO_DIMENSIONS.
  rewrite <- !elem_of_dom, !dom_insert_L, !dom_empty_L. done.
Qed.

(** Every table entry is a non-empty list of non-zero dimensions whose
    [max] is its last element. *)
Lemma MODEL_TO_DIMENSIONS_entries (m : string) (dims : list Z) :
  MODEL_TO_DIMENSIONS !! m = Some dims →
  (0 ∉ dims) ∧
  (∃ largest, py_max dims = Some largest ∧ last dims = Some largest
    ∧ largest ∈ dims ∧ ∀ d, d ∈ dims → d ≤ largest).
Proof.
  intros H. apply MODEL_TO_DIMENSIONS_lookup in H.
  destruct H as [[_ ->]|[[_ ->]|[_ ->]]]; (split; [set_solver|]).
  - exists 1536. repeat split; [set_solver|]. intros d Hd. set_unfold. lia.
  - exists 1536. repeat split; [set_solver|]. intros d Hd. set_unfold. lia.
  - exists 3072. repeat split; [set_solver|]. intros d Hd. set_unfold. lia.
Qed.

(** ** Slicing *)

Lemma slice_to_all {A} (l : list A) (stop : Z) :
  Z.of_nat (length l) ≤ stop → slice_to l stop = l.
Proof.
  intros H. unfold slice_to.
  destruct (stop <? 0) eqn:E; [apply Z.ltb_lt in E; lia|].
  apply firstn_all2. lia.
Qed.

Lemma slice_to_nonneg {A} (l : list A) (stop : Z) :
  0 ≤ stop →
  slice_to l stop = take (Z.to_nat (Z.min stop (Z.of_nat (length l)))) l.
Proof.
  intros H. unfold slice_to.
  destruct (stop <? 0) eqn:E; [apply Z.ltb_lt in E; lia|]. done.
Qed.

(** ** The constructor *)

Section ConstructorProperties.

Variable super_init : EmbeddingConfig → Outcome unit.
Variable new_OpenAI : option string → option string → Outcome OpenAI.
Variable new_AsyncOpenAI :
  option string → option string → Outcome AsyncOpenAI.
Variable environ : gmap string string.

Local Abbreviation init :=
  (__init__ super_init new_OpenAI new_AsyncOpenAI environ).

Local Abbreviation earlier_checks_pass :=
  (earlier_checks_pass super_init environ).

(** What a successful construction establishes. *)
Lemma init_Returns_inv (config : EmbeddingConfig)
    (self : OpenAIEmbeddingProvider) :
  init config = Returns self →
  provider config = Some "openai"
  ∧ truthy_str (os_getenv environ "OPENAI_EMBEDDING_API_KEY") = true
  ∧ truthy_str (rerank_model config) = false
  ∧ normalized_base_model config = Some (self_base_model self)
  ∧ self_base_model self ≠ ""
  ∧ is_Some (MODEL_TO_TOKENIZER !! self_base_model self)
  ∧ new_OpenAI (os_getenv environ "OPENAI_EMBEDDING_API_KEY")
      (os_getenv environ "OPENAI_EMBEDDING_API_BASE")
    = Returns (client self)
  ∧ new_AsyncOpenAI (os_getenv environ "OPENAI_EMBEDDING_API_KEY")
      (os_getenv environ "OPENAI_EMBEDDING_API_BASE")
    = Returns (async_client self)
  ∧ ∃ dims d,
      MODEL_TO_DIMENSIONS !! self_base_model self = Some dims
      ∧ self_base_dimension self = Some d
      ∧ (if truthy_int (base_dimension config)
         then base_dimension config = Some d ∧ d ∈ dims
         else py_max dims = Some d).
Proof.
  unfold __init__, mbind, Outcome_bind.
  destruct (super_init config) as [[]|]; [|intros [=]].
  destruct (truthy_str (provider config)) eqn:Hp; cbn [negb]; [|intros [=]].
  case_bool_decide as Hopenai; cbn [negb]; [|intros [=]].
  destruct (truthy_str (os_getenv environ "OPENAI_EMBEDDING_API_KEY"))
    eqn:Hkey; cbn [negb]; [|intros [=]].
  destruct (new_OpenAI _ _) as [c|] eqn:Hc; [|intros [=]].
  destruct (new_AsyncOpenAI _ _) as [ac|] eqn:Hac; [|intros [=]].
  destruct (truthy_str (rerank_model config)) eqn:Hrr; [intros [=]|].
  destruct (normalized_base_model config) as [m|] eqn:Hm; [|intros [=]].
  cbn [truthy_str]. case_bool_decide as Hne; cbn [negb]; [intros [=]|].
  case_bool_decide as Htok; cbn [negb]; [|intros [=]].
  destruct (MODEL_TO_DIMENSIONS !! m) as [dims|] eqn:Hdims; [|intros [=]].
  destruct (base_dimension config) as [d|] eqn:Hd.
  - destruct (truthy_int (Some d)) eqn:Ht.
    + case_bool_decide as Hin; cbn [negb]; [|intros [=]].
      intros [= <-]; simpl. repeat split; try done. by exists dims, d.
    + destruct (py_max dims) as [largest|] eqn:Hmax; [|intros [=]].
      intros [= <-]; simpl. repeat split; try done. by exists dims, largest.
  - destruct (py_max dims) as [largest|] eqn:Hmax; [|intros [=]].
    intros [= <-]; simpl. repeat split; try done. by exists dims, largest.
Qed.

(** Ahead of the client constructors every exception is a ValueError. *)
Lemma init_Raises_before_clients (config : EmbeddingConfig) :
  super_init config = Returns tt →
  truthy_str (provider config) = false
  ∨ provider config ≠ Some "openai"
  ∨ truthy_str (os_getenv environ "OPENAI_EMBEDDING_API_KEY") = false →
  ∃ msg, init config = Raises (ValueError msg).
Proof.
  intros Hs Hbad. unfold __init__, mbind, Outcome_bind. rewrite Hs.
  destruct (truthy_str (provider config)) eqn:Hp; cbn [negb]; [|eauto].
  case_bool_decide as Hopenai; cbn [negb]; [|eauto].
  destruct (truthy_str (os_getenv environ "OPENAI_EMBEDDING_API_KEY"))
    eqn:Hkey; cbn [negb]; [|eauto].
  by destruct Hbad as [?|[?|?]].
Qed.

(** Past the base-class initializer and the client constructors, every
    exception the constructor raises is a ValueError. *)
Lemma init_Raises_ValueError (config : EmbeddingConfig) (e : PyExc)
    (c : OpenAI) (ac : AsyncOpenAI) :
  super_init config = Returns tt →
  new_OpenAI (os_getenv environ "OPENAI_EMBEDDING_API_KEY")
    (os_getenv environ "OPENAI_EMBEDDING_API_BASE") = Returns c →
  new_AsyncOpenAI (os_getenv environ "OPENAI_EMBEDDING_API_KEY")
    (os_getenv environ "OPENAI_EMBEDDING_API_BASE") = Returns ac →
  init config = Raises e → ∃ msg, e = ValueError msg.
Proof.
  intros Hs Hc Hac. unfold __init__, mbind, Outcome_bind. rewrite Hs, Hc, Hac.
  destruct (truthy_str (provider config)); cbn [negb]; [|intros [= <-]; eauto].
  case_bool_decide; cbn [negb]; [|intros [= <-]; eauto].
  destruct (truthy_str (os_getenv environ "OPENAI_EMBEDDING_API_KEY"));
    cbn [negb]; [|intros [= <-]; eauto].
  destruct (truthy_str (rerank_model config)); [intros [= <-]; eauto|].
  destruct (normalized_base_model config) as [m|]; [|intros [= <-]; eauto].
  cbn [truthy_str]. case_bool_decide; cbn [negb]; [intros [= <-]; eauto|].
  case_bool_decide as Htok; cbn [negb]; [|intros [= <-]; eauto].
  apply tables_same_keys in Htok. destruct Htok as [dims Hdims].
  rewrite Hdims.
  destruct (MODEL_TO_DIMENSIONS_entries _ _ Hdims) as [_ (largest & -> & _)].
  destruct (base_dimension config) as [d|]; [|intros [=]].
  destruct (truthy_int (Some d)); [|intros [=]].
  case_bool_decide; cbn [negb]; [done|intros [= <-]; eauto].
Qed.

(** The configured name is falsy exactly when its normal form is. *)
Lemma normalized_base_model_falsy (config : EmbeddingConfig) :
  truthy_str (base_model config) = false →
  truthy_str (normalized_base_model config) = false.
Proof.
  unfold normalized_base_model.
  destruct (base_model config) as [bm|]; [|done].
  intros H. by rewrite H.
Qed.

(** C3: the base-class initializer having returned, construction raises
    ValueError whenever the provider is unset or is not [openai] or the
    API key is missing from the environment; and, the two client
    constructors having returned their clients, whenever the base model is
    unset or the normalized base model is not a supported one. *)
Theorem init_missing_configuration (config : EmbeddingConfig) :
  super_init config = Returns tt →
  (truthy_str (provider config) = false
   ∨ provider config ≠ Some "openai"
   ∨ truthy_str (os_getenv environ "OPENAI_EMBEDDING_API_KEY") = false →
   ∃ msg, init config = Raises (ValueError msg))
  ∧ (∀ c ac,
       new_OpenAI (os_getenv environ "OPENAI_EMBEDDING_API_KEY")
         (os_getenv environ "OPENAI_EMBEDDING_API_BASE") = Returns c →
       new_AsyncOpenAI (os_getenv environ "OPENAI_EMBEDDING_API_KEY")
         (os_getenv environ "OPENAI_EMBEDDING_API_BASE") = Returns ac →
       truthy_str (base_model config) = false
       ∨ (∀ m, normalized_base_model config = Some m →
               MODEL_TO_TOKENIZER !! m = None) →
       ∃ msg, init config = Raises (ValueError msg)).
Proof.
  intros Hs. split; [by apply init_Raises_before_clients|].
  intros c ac Hc Hac Hbad.
  destruct (init config) as [self|e] eqn:Hinit.
  - exfalso. apply init_Returns_inv in Hinit.
    destruct Hinit as (_ & _ & _ & Hm & Hne & Htok & _).
    destruct Hbad as [H|H].
    + apply normalized_base_model_falsy in H. rewrite Hm in H.
      simpl in H. by case_bool_decide.
    + rewrite (H _ Hm) in Htok. by destruct Htok.
  - destruct (init_Raises_ValueError _ _ _ _ Hs Hc Hac Hinit) as [msg ->].
    eauto.
Qed.

(** C2: the base-class initializer and the two client constructors having
    returned, for a supported model and a base_dimension that is set
    (truthy, as the constructor tests it), construction raises ValueError
    when the dimension is not in the model's list, with the dimension
    message once the earlier checks pass; when the dimension is in the
    list the constructor returns the provider once the earlier checks
    pass, and in no case raises the dimension error. *)
Theorem init_dimension_check (config : EmbeddingConfig) (m : string)
    (dims : list Z) (d : Z) (c : OpenAI) (ac : AsyncOpenAI) :
  super_init config = Returns tt →
  new_OpenAI (os_getenv environ "OPENAI_EMBEDDING_API_KEY")
    (os_getenv environ "OPENAI_EMBEDDING_API_BASE") = Returns c →
  new_AsyncOpenAI (os_getenv environ "OPENAI_EMBEDDING_API_KEY")
    (os_getenv environ "OPENAI_EMBEDDING_API_BASE") = Returns ac →
  normalized_base_model config = Some m →
  MODEL_TO_DIMENSIONS !! m = Some dims →
  base_dimension config = Some d →
  truthy_int (base_dimension config) = true →
  (d ∉ dims →
     (∃ msg, init config = Raises (ValueError msg))
     ∧ (earlier_checks_pass config →
        init config = Raises (ValueError
          ("Dimensions " +:+ pretty d +:+ " for " +:+ m
           +:+ " are not supported"))))
  ∧ (d ∈ dims →
     (earlier_checks_pass config →
      init config =
        Returns {| client := c;
                   async_client := ac;
                   self_base_model := m;
                   self_base_dimension := Some d |})
     ∧ init config ≠ Raises (ValueError
          ("Dimensions " +:+ pretty d +:+ " for " +:+ m
           +:+ " are not supported"))).
Proof.
  intros Hs Hc Hac Hm Hdims Hd Ht.
  assert (Hne : m ≠ "").
  { intros ->. apply MODEL_TO_DIMENSIONS_lookup in Hdims.
    by destruct Hdims as [[? _]|[[? _]|[? _]]]. }
  assert (Htok : is_Some (MODEL_TO_TOKENIZER !! m)).
  { apply tables_same_keys. eauto. }
  assert (Hrun : ∀ r, earlier_checks_pass config →
    (if bool_decide (d ∈ dims)
     then Returns {| client := c;
                     async_client := ac;
                     self_base_model := m;
                     self_base_dimension := Some d |}
     else Raises (ValueError
          ("Dimensions " +:+ pretty d +:+ " for " +:+ m
           +:+ " are not supported"))) = r → init config = r).
  { intros r (_ & Hp & Hkey & Hrr) <-.
    unfold __init__, mbind, Outcome_bind.
    rewrite Hs, Hp, Hkey, Hc, Hac, Hrr, Hm, Hdims, Hd. rewrite Hd in Ht.
    rewrite Ht. simpl.
    rewrite (bool_decide_eq_false_2 _ Hne), (bool_decide_eq_true_2 _ Htok).
    simpl. by case_bool_decide. }
  split.
  - intros Hnot. split.
    + destruct (init config) as [self|e] eqn:Hinit.
      * exfalso. apply init_Returns_inv in Hinit.
        destruct Hinit as (_ & _ & _ & Hm' & _ & _ & _ & _ & dims' & d' & Hdims' & _ & Hif).
        rewrite Ht, Hd in Hif. rewrite Hm in Hm'.
        assert (self_base_model self = m) as Heq by congruence.
        rewrite Heq in Hdims'.
        assert (dims' = dims) as -> by congruence.
        destruct Hif as [Heq' Hin].
        assert (d' = d) as -> by congruence. done.
      * destruct (init_Raises_ValueError _ _ _ _ Hs Hc Hac Hinit)
          as [msg ->]. eauto.
    + intros Hpass. apply Hrun; [done|].
      by rewrite (bool_decide_eq_false_2 _ Hnot).
  - intros Hin. split.
    + intros Hpass. apply Hrun; [done|].
      by rewrite (bool_decide_eq_true_2 _ Hin).
    + unfold __init__, mbind, Outcome_bind.
      rewrite Hs, Hc, Hac, Hm, Hdims, Hd.
      rewrite Hd in Ht. rewrite Ht.
      rewrite (bool_decide_eq_true_2 _ Hin).
      repeat (case_match; try done).
Qed.


End ConstructorProperties.

(** ** Reranking *)

(** C10: for a non-negative limit (10 when omitted), rerank and arerank
    return the first min(limit, len(results)) elements of the input, in
    order and unmodified, so never more than limit elements. *)
Theorem rerank_first_limit {R} (self : OpenAIEmbeddingProvider)
    (query : string) (results : list R) (stage : option Step)
    (limit : option Z) :
  0 ≤ default 10 limit →
  rerank self query results stage limit
    = take (Z.to_nat (Z.min (default 10 limit) (Z.of_nat (length results))))
        results
  ∧ arerank self query results stage limit
    = take (Z.to_nat (Z.min (default 10 limit) (Z.of_nat (length results))))
        results
  ∧ Z.of_nat (length (rerank self query results stage limit))
    = Z.min (default 10 limit) (Z.of_nat (length results))
  ∧ Z.of_nat (length (rerank self query results stage limit))
    ≤ default 10 limit
  ∧ (∀ i x, rerank self query results stage limit !! i = Some x →
            results !! i = Some x).
Proof.
  intros Hlimit. unfold rerank, arerank.
  rewrite (slice_to_nonneg _ _ Hlimit).
  repeat split.
  - rewrite length_take. lia.
  - rewrite length_take. lia.
  - intros i x Hi. apply lookup_take_Some in Hi. by destruct Hi.
Qed.

(** C1, amended: rerank and arerank return the input list unchanged
    whenever it has at most limit elements (limit is 10 when omitted). *)
Theorem rerank_passthrough_within_limit {R} (self : OpenAIEmbeddingProvider)
    (query : string) (results : list R) (stage : option Step)
    (limit : option Z) :
  Z.of_nat (length results) ≤ default 10 limit →
  rerank self query results stage limit = results
  ∧ arerank self query results stage limit = results.
Proof.
  intros Hlen. unfold rerank, arerank.
  by rewrite (slice_to_all _ _ Hlen).
Qed.

(** C1 as stated fails: with the default limit a list of eleven results
    comes back without its last element, from rerank and from arerank. *)
Lemma rerank_not_passthrough :
  rerank Sample.provider_large "query" Sample.eleven None None
    = [1; 2; 3; 4; 5; 6; 7; 8; 9; 10]
  ∧ rerank Sample.provider_large "query" Sample.eleven None None
    ≠ Sample.eleven
  ∧ arerank Sample.provider_large "query" Sample.eleven None None
    ≠ Sample.eleven.
Proof. repeat split; vm_compute; congruence. Qed.

Lemma rerank_passthrough_within_limit_witness :
  rerank Sample.provider_large "query" [1; 2; 3] None None = [1; 2; 3]
  ∧ arerank Sample.provider_large "query" [1; 2; 3] None None = [1; 2; 3].
Proof.
  apply (rerank_passthrough_within_limit Sample.provider_large "query"
           [1; 2; 3] None None).
  simpl. lia.
Defined.

Lemma rerank_first_limit_witness :
  0 ≤ default 10 (Some 2)
  ∧ rerank Sample.provider_large "query" Sample.eleven None (Some 2) = [1; 2].
Proof.
  assert (H : 0 ≤ default 10 (Some 2)) by (simpl; lia).
  split; [exact H|].
  destruct (rerank_first_limit Sample.provider_large "query"
              Sample.eleven None (Some 2) H) as [-> _].
  reflexivity.
Defined.

(** ** Request parameters *)

(** The merged keyword arguments, once the dimensions are computed. *)
Lemma get_embedding_kwargs_Returns (self : OpenAIEmbeddingProvider)
    (kw : gmap string PyVal) (dimensions : PyVal) :
  _get_dimensions self = Returns dimensions →
  _get_embedding_kwargs self kw
    = Returns (kw ∪ (<["model" := VStr (self_base_model self)]>
                     (<["dimensions" := dimensions]> ∅))).
Proof.
  intros H. unfold _get_embedding_kwargs, mbind, Outcome_bind. by rewrite H.
Qed.

(** The caller's value wins on [model] ... *)
Lemma merged_lookup_model (kw : gmap string PyVal) (model dimensions : PyVal) :
  (kw ∪ (<["model" := model]> (<["dimensions" := dimensions]> ∅))) !! "model"
  = Some (default model (kw !! "model")).
Proof.
  rewrite lookup_union, lookup_insert_eq.
  by destruct (kw !! "model").
Qed.

(** ... and on [dimensions]. *)
Lemma merged_lookup_dimensions (kw : gmap string PyVal)
    (model dimensions : PyVal) :
  (kw ∪ (<["model" := model]> (<["dimensions" := dimensions]> ∅)))
    !! "dimensions"
  = Some (default dimensions (kw !! "dimensions")).
Proof.
  rewrite lookup_union, lookup_insert_ne, lookup_insert_eq by done.
  by destruct (kw !! "dimensions").
Qed.

(** On a constructed provider the dimensions value is the sentinel for
    the ada model and the provider's base_dimension otherwise. *)
Lemma get_dimensions_constructed
    (super_init : EmbeddingConfig → Outcome unit)
    (new_OpenAI : option string → option string → Outcome OpenAI)
    (new_AsyncOpenAI : option string → option string → Outcome AsyncOpenAI)
    (environ : gmap string string) (config : EmbeddingConfig)
    (self : OpenAIEmbeddingProvider) :
  __init__ super_init new_OpenAI new_AsyncOpenAI environ config = Returns self →
  ∃ d, self_base_dimension self = Some d
    ∧ _get_dimensions self
      = Returns (if bool_decide (self_base_model self = "text-embedding-ada-002")
                 then NOT_GIVEN else VInt d).
Proof.
  intros Hinit.
  destruct (init_Returns_inv _ _ _ _ _ _ Hinit)
    as (_ & _ & _ & _ & _ & _ & _ & _ & dims & d & Hdims & Hd & Hif).
  exists d. split; [done|].
  unfold _get_dimensions. case_bool_decide; [done|].
  rewrite Hd. simpl.
  destruct (MODEL_TO_DIMENSIONS_entries _ _ Hdims)
    as [H0 (largest & Hmax & _ & Hlargest & _)].
  case_bool_decide as Hz; [|done]. exfalso. subst d.
  destruct (truthy_int (base_dimension config)).
  - by destruct Hif.
  - rewrite Hmax in Hif. by injection Hif as ->.
Qed.

(** C9, amended: the value the provider supplies for dimensions is the
    sentinel NOT_GIVEN whenever the model is text-embedding-ada-002,
    whatever base_dimension is, and the provider's base_dimension for every
    other model of a constructed provider; the dimensions entry of the
    request parameters is that value unless the caller's keyword arguments
    carry their own dimensions, which then takes its place. *)
Theorem dimensions_parameter
    (super_init : EmbeddingConfig → Outcome unit)
    (new_OpenAI : option string → option string → Outcome OpenAI)
    (new_AsyncOpenAI : option string → option string → Outcome AsyncOpenAI)
    (environ : gmap string string) (config : EmbeddingConfig)
    (self any : OpenAIEmbeddingProvider) (kw : gmap string PyVal) :
  (self_base_model any = "text-embedding-ada-002" →
   _get_dimensions any = Returns NOT_GIVEN
   ∧ ∃ params, _get_embedding_kwargs any kw = Returns params
       ∧ params !! "dimensions" = Some (default NOT_GIVEN (kw !! "dimensions")))
  ∧ (__init__ super_init new_OpenAI new_AsyncOpenAI environ config = Returns self →
     self_base_model self ≠ "text-embedding-ada-002" →
     ∃ d, self_base_dimension self = Some d
       ∧ _get_dimensions self = Returns (VInt d)
       ∧ ∃ params, _get_embedding_kwargs self kw = Returns params
           ∧ params !! "dimensions"
             = Some (default (VInt d) (kw !! "dimensions"))).
Proof.
  split.
  - intros Hada.
    assert (Hdim : _get_dimensions any = Returns NOT_GIVEN).
    { unfold _get_dimensions. by rewrite (bool_decide_eq_true_2 _ Hada). }
    split; [done|]. eexists. split.
    + by apply get_embedding_kwargs_Returns.
    + apply merged_lookup_dimensions.
  - intros Hinit Hother.
    destruct (get_dimensions_constructed _ _ _ _ _ _ Hinit) as (d & Hd & Hdim).
    rewrite (bool_decide_eq_false_2 _ Hother) in Hdim.
    exists d. repeat split; try done. eexists. split.
    + by apply get_embedding_kwargs_Returns.
    + apply merged_lookup_dimensions.
Qed.

(** C9 as stated fails: on the ada provider a caller who passes
    dimensions=512 gets 512 into the request parameters, not the
    sentinel. *)
Lemma dimensions_overridden_by_caller :
  __init__ Sample.super_init Sample.new_OpenAI Sample.new_AsyncOpenAI
      Sample.environ Sample.config_ada
    = Returns Sample.provider_ada
  ∧ ∃ params,
      _get_embedding_kwargs Sample.provider_ada Sample.kwargs_dimensions
        = Returns params
      ∧ params !! "dimensions" = Some (VInt 512)
      ∧ params !! "dimensions" ≠ Some NOT_GIVEN.
Proof.
  split; [reflexivity|]. eexists. split; [reflexivity|].
  split; [reflexivity|]. vm_compute. congruence.
Qed.

Lemma dimensions_parameter_witness :
  __init__ Sample.super_init Sample.new_OpenAI Sample.new_AsyncOpenAI
      Sample.environ Sample.config_large
    = Returns Sample.provider_large
  ∧ Sample.provider_large.(self_base_model) ≠ "text-embedding-ada-002"
  ∧ Sample.provider_ada.(self_base_model) = "text-embedding-ada-002"
  ∧ _get_dimensions Sample.provider_ada = Returns NOT_GIVEN
  ∧ _get_dimensions Sample.provider_large = Returns (VInt 3072).
Proof.
  assert (Hinit : __init__ Sample.super_init Sample.new_OpenAI Sample.new_AsyncOpenAI
      Sample.environ Sample.config_large
                  = Returns Sample.provider_large) by reflexivity.
  assert (Hother : Sample.provider_large.(self_base_model)
                   ≠ "text-embedding-ada-002") by (simpl; congruence).
  assert (Hada : Sample.provider_ada.(self_base_model)
                 = "text-embedding-ada-002") by reflexivity.
  destruct (dimensions_parameter Sample.super_init Sample.new_OpenAI
              Sample.new_AsyncOpenAI Sample.environ
              Sample.config_large Sample.provider_large Sample.provider_ada ∅)
    as [Hfirst Hsecond].
  destruct (Hfirst Hada) as [Hsentinel _].
  destruct (Hsecond Hinit Hother) as (d & Hd & Hdim & _).
  split; [exact Hinit|]. split; [exact Hother|]. split; [exact Hada|].
  split; [exact Hsentinel|].
  rewrite Hdim. simpl in Hd. congruence.
Defined.

(** ** The request paths *)

Section RequestProperties.

Variable float : Type.
Variable truncate_texts_to_token_limit :
  list string → PyVal → Outcome (list string).
Variable embeddings_create :
  OpenAI → list string → gmap string PyVal
  → Outcome (CreateEmbeddingResponse float).
Variable async_embeddings_create :
  AsyncOpenAI → list string → gmap string PyVal
  → Outcome (CreateEmbeddingResponse float).

Local Abbreviation execute_task :=
  (_execute_task float truncate_texts_to_token_limit async_embeddings_create).
Local Abbreviation execute_task_sync :=
  (_execute_task_sync float truncate_texts_to_token_limit embeddings_create).

(** Both paths, opened up to the [try] block. *)
Local Ltac enter_try Ht Hkw :=
  unfold _execute_task, _execute_task_sync, task_texts, pure;
  rewrite Ht; unfold mbind at 1; unfold Exec_bind; cbn [fst snd app];
  rewrite Hkw; unfold mbind at 1; cbn [fst snd app].

(** C4: when the remote call of either path raises an [Exception] [e],
    the path raises ValueError with cause [e]: with the invalid-key
    message when [e] is an AuthenticationError, with
    "Error getting embeddings: " followed by [str(e)] otherwise. *)
Theorem execute_task_error_mapping (self : OpenAIEmbeddingProvider)
    (task : Task) (t input : list string) (params : gmap string PyVal)
    (e : PyExc) :
  texts task = Some t →
  _get_embedding_kwargs self (task_kwargs task) = Returns params →
  sent_texts truncate_texts_to_token_limit t params = Some input →
  isinstance_Exception e = true →
  (async_embeddings_create (async_client self) input params = Raises e →
   outcome (execute_task self task)
   = Raises (ValueError_from
       (if isinstance_AuthenticationError e
        then "Invalid OpenAI API key provided. Please check your OPENAI_API_KEY environment variable."
        else "Error getting embeddings: " +:+ exc_str e) e))
  ∧ (embeddings_create (client self) input params = Raises e →
     outcome (execute_task_sync self task)
     = Raises (ValueError_from
         (if isinstance_AuthenticationError e
          then "Invalid OpenAI API key provided. Please check your OPENAI_API_KEY environment variable."
          else "Error getting embeddings: " +:+ exc_str e) e)).
Proof.
  intros Ht Hkw Hsent He. unfold sent_texts in Hsent.
  split; intros Hcall; enter_try Ht Hkw;
    unfold except_clauses, try_except, suppress_Exception, call, raise,
      mbind, Exec_bind, mret, Exec_ret, outcome;
    destruct (truthy (kwargs_get_model params));
    [ destruct (truncate_texts_to_token_limit t (kwargs_get_model params))
        as [t'|e'];
      [|destruct (isinstance_Exception e'); [|discriminate]] | | 
      destruct (truncate_texts_to_token_limit t (kwargs_get_model params))
        as [t'|e'];
      [|destruct (isinstance_Exception e'); [|discriminate]] | ];
    injection Hsent as <-; cbn [fst snd app]; rewrite Hcall;
    cbn [fst snd app]; rewrite He;
    by destruct (isinstance_AuthenticationError e).
Qed.

(** C6, amended: in both paths, when the model of the merged request
    parameters is truthy, truncate_texts_to_token_limit is called on the
    task's texts with that model before anything else, and the request
    that follows carries the truncated texts when the call returns and the
    original texts when it raises an Exception.  On a constructed provider
    whose task does not override [model], that model is the configured one
    and is truthy. *)
Theorem truncation_precedes_request
    (super_init : EmbeddingConfig → Outcome unit)
    (new_OpenAI : option string → option string → Outcome OpenAI)
    (new_AsyncOpenAI : option string → option string → Outcome AsyncOpenAI)
    (environ : gmap string string) (config : EmbeddingConfig)
    (self : OpenAIEmbeddingProvider) (task : Task) (t : list string) :
  texts task = Some t →
  (∀ params,
     _get_embedding_kwargs self (task_kwargs task) = Returns params →
     truthy (kwargs_get_model params) = true →
     (∀ truncated,
        truncate_texts_to_token_limit t (kwargs_get_model params)
          = Returns truncated →
        (∃ rest, calls (execute_task self task)
           = TruncateCall t (kwargs_get_model params)
             :: AsyncCreateCall (async_client self) truncated params :: rest)
        ∧ (∃ rest, calls (execute_task_sync self task)
           = TruncateCall t (kwargs_get_model params)
             :: CreateCall (client self) truncated params :: rest))
     ∧ (∀ e,
        truncate_texts_to_token_limit t (kwargs_get_model params) = Raises e →
        isinstance_Exception e = true →
        (∃ rest, calls (execute_task self task)
           = TruncateCall t (kwargs_get_model params)
             :: AsyncCreateCall (async_client self) t params :: rest)
        ∧ (∃ rest, calls (execute_task_sync self task)
           = TruncateCall t (kwargs_get_model params)
             :: CreateCall (client self) t params :: rest)))
  ∧ (__init__ super_init new_OpenAI new_AsyncOpenAI environ config = Returns self →
     task_kwargs task !! "model" = None →
     ∃ params,
       _get_embedding_kwargs self (task_kwargs task) = Returns params
       ∧ kwargs_get_model params = VStr (self_base_model self)
       ∧ truthy (kwargs_get_model params) = true).
Proof.
  intros Ht. split.
  - intros params Hkw Hmodel. split.
    + intros truncated Htr.
      split; enter_try Ht Hkw;
        unfold except_clauses, try_except, suppress_Exception, call, raise,
          mbind, Exec_bind, mret, Exec_ret, calls;
        rewrite Hmodel, Htr; cbn [fst snd app];
        match goal with
        | |- context [async_embeddings_create ?c ?i ?p] =>
            destruct (async_embeddings_create c i p) as [r|e]
        | |- context [embeddings_create ?c ?i ?p] =>
            destruct (embeddings_create c i p) as [r|e]
        end; cbn [fst snd app]; eauto;
        destruct (isinstance_AuthenticationError e); cbn [fst snd app];
          eauto;
        destruct (isinstance_Exception e); cbn [fst snd app]; eauto.
    + intros e0 Htr He0.
      split; enter_try Ht Hkw;
        unfold except_clauses, try_except, suppress_Exception, call, raise,
          mbind, Exec_bind, mret, Exec_ret, calls;
        rewrite Hmodel, Htr, He0; cbn [fst snd app];
        match goal with
        | |- context [async_embeddings_create ?c ?i ?p] =>
            destruct (async_embeddings_create c i p) as [r|e]
        | |- context [embeddings_create ?c ?i ?p] =>
            destruct (embeddings_create c i p) as [r|e]
        end; cbn [fst snd app]; eauto;
        destruct (isinstance_AuthenticationError e); cbn [fst snd app];
          eauto;
        destruct (isinstance_Exception e); cbn [fst snd app]; eauto.
  - intros Hinit Hnone.
    destruct (get_dimensions_constructed _ _ _ _ _ _ Hinit) as (d & _ & Hdim).
    destruct (init_Returns_inv _ _ _ _ _ _ Hinit) as (_ & _ & _ & _ & Hne & _).
    eexists. split; [by apply get_embedding_kwargs_Returns|].
    unfold kwargs_get_model. rewrite merged_lookup_model, Hnone. simpl.
    split; [done|]. by rewrite (bool_decide_eq_false_2 _ Hne).
Qed.

(** C7: the two paths issue the same truncation call and the same request
    (same input, same merged parameters), whatever the clients answer; and
    when the two clients answer alike the paths agree on every outside
    call, the client object apart, and on the outcome, raised errors
    included. *)
Theorem sync_async_equivalent (self : OpenAIEmbeddingProvider) (task : Task) :
  requests (calls (execute_task self task))
  = requests (calls (execute_task_sync self task))
  ∧ ((∀ input params,
        async_embeddings_create (async_client self) input params
        = embeddings_create (client self) input params) →
     request_of <$> calls (execute_task self task)
     = request_of <$> calls (execute_task_sync self task)
     ∧ outcome (execute_task self task)
       = outcome (execute_task_sync self task)).
Proof.
  unfold _execute_task, _execute_task_sync, task_texts, pure.
  destruct (texts task) as [t|]; [|done].
  unfold mbind at 1 4. unfold Exec_bind. cbn [fst snd app].
  destruct (_get_embedding_kwargs self (task_kwargs task)) as [params|];
    [|done].
  unfold mbind at 1 4. cbn [fst snd app].
  unfold except_clauses, try_except, suppress_Exception, call, raise,
    mbind, Exec_bind, mret, Exec_ret, calls, outcome, requests.
  split.
  - destruct (truthy (kwargs_get_model params));
      [destruct (truncate_texts_to_token_limit t (kwargs_get_model params))
         as [t'|e']; [|destruct (isinstance_Exception e'); [|done]]|];
      cbn [fst snd app];
      match goal with
      | |- context [async_embeddings_create ?c ?i ?p] =>
          destruct (async_embeddings_create c i p) as [r1|e1]
      end;
      match goal with
      | |- context [embeddings_create ?c ?i ?p] =>
          destruct (embeddings_create c i p) as [r2|e2]
      end; cbn [fst snd app];
      repeat match goal with
      | |- context [isinstance_AuthenticationError ?e] =>
          destruct (isinstance_AuthenticationError e)
      | |- context [isinstance_Exception ?e] =>
          destruct (isinstance_Exception e)
      end; reflexivity.
  - intros Hsame.
    destruct (truthy (kwargs_get_model params));
      [destruct (truncate_texts_to_token_limit t (kwargs_get_model params))
         as [t'|e']; [|destruct (isinstance_Exception e'); [|done]]|];
      cbn [fst snd app]; rewrite Hsame;
      match goal with
      | |- context [embeddings_create ?c ?i ?p] =>
          destruct (embeddings_create c i p) as [r2|e2]
      end; cbn [fst snd app];
      repeat match goal with
      | |- context [isinstance_AuthenticationError ?e] =>
          destruct (isinstance_AuthenticationError e)
      | |- context [isinstance_Exception ?e] =>
          destruct (isinstance_Exception e)
      end; done.
Qed.

End RequestProperties.

(** C6 as stated fails: a task whose keyword arguments name another model
    has its texts truncated for that model, and no truncation for the
    configured model takes place before the request, on either path. *)
Lemma truncation_with_overriding_model :
  __init__ Sample.super_init Sample.new_OpenAI Sample.new_AsyncOpenAI
      Sample.environ Sample.config_large
    = Returns Sample.provider_large
  ∧ calls (_execute_task_sync Z Sample.truncate Sample.create
             Sample.provider_large Sample.task_other_model)
    = [TruncateCall ["hello world"] (VStr "text-embedding-3-small");
       CreateCall Sample.the_client ["hel"] Sample.params_other_model]
  ∧ calls (_execute_task Z Sample.truncate Sample.create
             Sample.provider_large Sample.task_other_model)
    = [TruncateCall ["hello world"] (VStr "text-embedding-3-small");
       AsyncCreateCall Sample.the_async_client ["hel"]
         Sample.params_other_model]
  ∧ (TruncateCall ["hello world"]
       (VStr (self_base_model Sample.provider_large))
     ∉ calls (_execute_task_sync Z Sample.truncate Sample.create
                Sample.provider_large Sample.task_other_model))
  ∧ (TruncateCall ["hello world"]
       (VStr (self_base_model Sample.provider_large))
     ∉ calls (_execute_task Z Sample.truncate Sample.create
                Sample.provider_large Sample.task_other_model)).
Proof.
  assert (Hsync : calls (_execute_task_sync Z Sample.truncate Sample.create
             Sample.provider_large Sample.task_other_model)
    = [TruncateCall ["hello world"] (VStr "text-embedding-3-small");
       CreateCall Sample.the_client ["hel"] Sample.params_other_model])
    by reflexivity.
  assert (Hasync : calls (_execute_task Z Sample.truncate Sample.create
             Sample.provider_large Sample.task_other_model)
    = [TruncateCall ["hello world"] (VStr "text-embedding-3-small");
       AsyncCreateCall Sample.the_async_client ["hel"]
         Sample.params_other_model])
    by reflexivity.
  split; [reflexivity|]. split; [exact Hsync|]. split; [exact Hasync|].
  rewrite Hsync, Hasync. simpl.
  split; rewrite !elem_of_cons, elem_of_nil; intros [H|[H|[]]];
    discriminate H.
Qed.

Lemma init_missing_configuration_witness :
  Sample.super_init Sample.config_no_provider = Returns tt
  ∧ truthy_str (provider Sample.config_no_provider) = false
  ∧ (∃ msg, __init__ Sample.super_init Sample.new_OpenAI
              Sample.new_AsyncOpenAI Sample.environ
              Sample.config_no_provider = Raises (ValueError msg))
  ∧ Sample.new_OpenAI (os_getenv Sample.environ "OPENAI_EMBEDDING_API_KEY")
      (os_getenv Sample.environ "OPENAI_EMBEDDING_API_BASE")
    = Returns Sample.the_client
  ∧ Sample.new_AsyncOpenAI
      (os_getenv Sample.environ "OPENAI_EMBEDDING_API_KEY")
      (os_getenv Sample.environ "OPENAI_EMBEDDING_API_BASE")
    = Returns Sample.the_async_client
  ∧ (∀ m, normalized_base_model SampleCalls.config_unsupported = Some m →
          MODEL_TO_TOKENIZER !! m = None)
  ∧ (∃ msg, __init__ Sample.super_init Sample.new_OpenAI
              Sample.new_AsyncOpenAI Sample.environ
              SampleCalls.config_unsupported = Raises (ValueError msg)).
Proof.
  assert (Hunsupported :
    ∀ m, normalized_base_model SampleCalls.config_unsupported = Some m →
         MODEL_TO_TOKENIZER !! m = None).
  { intros m [= <-]. reflexivity. }
  destruct (init_missing_configuration Sample.super_init Sample.new_OpenAI
              Sample.new_AsyncOpenAI Sample.environ
              Sample.config_no_provider eq_refl) as [Hearly _].
  destruct (init_missing_configuration Sample.super_init Sample.new_OpenAI
              Sample.new_AsyncOpenAI Sample.environ
              SampleCalls.config_unsupported eq_refl) as [_ Hlate].
  split; [reflexivity|]. split; [reflexivity|].
  split; [exact (Hearly (or_introl eq_refl))|].
  split; [reflexivity|]. split; [reflexivity|].
  split; [exact Hunsupported|].
  exact (Hlate Sample.the_client Sample.the_async_client eq_refl eq_refl
           (or_intror Hunsupported)).
Defined.

Lemma init_dimension_check_witness :
  (7 ∉ [512; 1536])
  ∧ (∃ msg, __init__ Sample.super_init Sample.new_OpenAI Sample.new_AsyncOpenAI
      Sample.environ Sample.config_small_7
            = Raises (ValueError msg))
  ∧ __init__ Sample.super_init Sample.new_OpenAI Sample.new_AsyncOpenAI
      Sample.environ Sample.config_small_7
    = Raises (ValueError
        "Dimensions 7 for text-embedding-3-small are not supported")
  ∧ 512 ∈ [512; 1536]
  ∧ __init__ Sample.super_init Sample.new_OpenAI Sample.new_AsyncOpenAI
      Sample.environ Sample.config_small_512
    = Returns {| client := Sample.the_client;
                 async_client := Sample.the_async_client;
                 self_base_model := "text-embedding-3-small";
                 self_base_dimension := Some 512 |}.
Proof.
  assert (Hin : 512 ∈ [512; 1536]) by (apply elem_of_cons; by left).
  assert (Hpass512 : earlier_checks_pass Sample.super_init Sample.environ
                       Sample.config_small_512).
  { repeat split. }
  destruct (init_dimension_check Sample.super_init Sample.new_OpenAI
              Sample.new_AsyncOpenAI Sample.environ
              Sample.config_small_512 "text-embedding-3-small" [512; 1536]
              512 Sample.the_client Sample.the_async_client
              eq_refl eq_refl eq_refl eq_refl eq_refl eq_refl eq_refl)
    as [_ Hreturns].
  destruct (Hreturns Hin) as [Hprovider _].
  assert (Hnot : 7 ∉ [512; 1536]).
  { rewrite !elem_of_cons, elem_of_nil. lia. }
  assert (Hpass : earlier_checks_pass Sample.super_init Sample.environ
                    Sample.config_small_7).
  { repeat split. }
  destruct (init_dimension_check Sample.super_init Sample.new_OpenAI
              Sample.new_AsyncOpenAI Sample.environ
              Sample.config_small_7 "text-embedding-3-small" [512; 1536] 7
              Sample.the_client Sample.the_async_client
              eq_refl eq_refl eq_refl eq_refl eq_refl eq_refl eq_refl)
    as [Hout _].
  destruct (Hout Hnot) as [Hraise Hmsg].
  split; [exact Hnot|]. split; [exact Hraise|]. split; [exact (Hmsg Hpass)|].
  split; [exact Hin|]. exact (Hprovider Hpass512).
Defined.


Lemma execute_task_error_mapping_witness :
  isinstance_Exception Sample.unauthorized = true
  ∧ Sample.create_unauthorized Sample.the_async_client ["hel"]
      Sample.params_ada = Raises Sample.unauthorized
  ∧ outcome (_execute_task Z Sample.truncate Sample.create_unauthorized
               Sample.provider_ada Sample.task_plain)
    = Raises (ValueError_from
        "Invalid OpenAI API key provided. Please check your OPENAI_API_KEY environment variable."
        Sample.unauthorized)
  ∧ outcome (_execute_task_sync Z Sample.truncate Sample.create_timeout
               Sample.provider_ada Sample.task_plain)
    = Raises (ValueError_from
        "Error getting embeddings: Request timed out." Sample.timeout).
Proof.
  split; [reflexivity|]. split; [reflexivity|]. split.
  - apply (execute_task_error_mapping Z Sample.truncate
             Sample.create_unauthorized Sample.create_unauthorized
             Sample.provider_ada Sample.task_plain ["hello world"] ["hel"]
             Sample.params_ada Sample.unauthorized);
      reflexivity.
  - apply (execute_task_error_mapping Z Sample.truncate
             Sample.create_timeout Sample.create_timeout
             Sample.provider_ada Sample.task_plain ["hello world"] ["hel"]
             Sample.params_ada Sample.timeout);
      reflexivity.
Defined.

Lemma truncation_precedes_request_witness :
  texts Sample.task_plain = Some ["hello world"]
  ∧ truthy (kwargs_get_model Sample.params_large) = true
  ∧ Sample.truncate ["hello world"] (kwargs_get_model Sample.params_large)
    = Returns ["hel"]
  ∧ (∃ rest,
       calls (_execute_task Z Sample.truncate Sample.create
                Sample.provider_large Sample.task_plain)
       = TruncateCall ["hello world"] (VStr "text-embedding-3-large")
         :: AsyncCreateCall Sample.the_async_client ["hel"]
              Sample.params_large :: rest)
  ∧ (∃ rest,
       calls (_execute_task_sync Z Sample.truncate Sample.create
                Sample.provider_large Sample.task_plain)
       = TruncateCall ["hello world"] (VStr "text-embedding-3-large")
         :: CreateCall Sample.the_client ["hel"] Sample.params_large :: rest).
Proof.
  assert (Ht : texts Sample.task_plain = Some ["hello world"])
    by reflexivity.
  split; [exact Ht|]. split; [reflexivity|]. split; [reflexivity|].
  destruct (truncation_precedes_request Z Sample.truncate Sample.create
              Sample.create Sample.super_init Sample.new_OpenAI
              Sample.new_AsyncOpenAI Sample.environ
              Sample.config_large Sample.provider_large Sample.task_plain
              ["hello world"] Ht) as [Hcalls _].
  destruct (Hcalls Sample.params_large eq_refl eq_refl) as [Hreturns _].
  exact (Hreturns ["hel"] eq_refl).
Defined.

Lemma sync_async_equivalent_witness :
  (∀ input params,
     Sample.create (async_client Sample.provider_large) input params
     = Sample.create (client Sample.provider_large) input params)
  ∧ outcome (_execute_task Z Sample.truncate Sample.create
               Sample.provider_large Sample.task_plain)
    = outcome (_execute_task_sync Z Sample.truncate Sample.create
                 Sample.provider_large Sample.task_plain).
Proof.
  assert (Hsame : ∀ input params,
     Sample.create (async_client Sample.provider_large) input params
     = Sample.create (client Sample.provider_large) input params)
    by (intros; reflexivity).
  split; [exact Hsame|].
  destruct (sync_async_equivalent Z Sample.truncate Sample.create
              Sample.create Sample.provider_large Sample.task_plain)
    as [_ Hagree].
  exact (proj2 (Hagree Hsame)).
Defined.

(** ** Tokenization *)

(** C5: for a supported model, tokenize_string hands the text to the
    cl100k_base encoding and returns its tokens, a non-empty list of
    integers for non-empty text, the encoder being as the spec describes
    it ([encoder_nonempty]); for any other model name it raises
    ValueError. *)
Theorem tokenize_string_tokens (Encoding : Type)
    (tiktoken_get_encoding : string → Outcome Encoding)
    (encode : Encoding → string → Outcome (list Z))
    (self : OpenAIEmbeddingProvider) (cl100k_base : Encoding) :
  tiktoken_get_encoding "cl100k_base" = Returns cl100k_base →
  encoder_nonempty Encoding encode cl100k_base →
  (∀ model text,
     is_Some (MODEL_TO_TOKENIZER !! model) →
     tokenize_string Encoding tiktoken_get_encoding encode self text model
       = encode cl100k_base text
     ∧ (text ≠ "" →
        ∃ tokens,
          tokenize_string Encoding tiktoken_get_encoding encode self text model
            = Returns tokens
          ∧ tokens ≠ []))
  ∧ (∀ model text,
     MODEL_TO_TOKENIZER !! model = None →
     tokenize_string Encoding tiktoken_get_encoding encode self text model
       = Raises (ValueError
           ("OpenAI embedding model " +:+ model +:+ " not supported."))).
Proof.
  intros Henc Hnonempty. split.
  - intros model text [name Hname].
    assert (tokenize_string Encoding tiktoken_get_encoding encode self
              text model = encode cl100k_base text) as Heq.
    { unfold tokenize_string. rewrite Hname.
      apply MODEL_TO_TOKENIZER_lookup in Hname. destruct Hname as [_ ->].
      unfold mbind, Outcome_bind. by rewrite Henc. }
    split; [done|]. intros Htext. rewrite Heq. by apply Hnonempty.
  - intros model text Hnone. unfold tokenize_string. by rewrite Hnone.
Qed.

Lemma tokenize_string_tokens_witness :
  Sample.get_encoding "cl100k_base" = Returns "cl100k_base"
  ∧ encoder_nonempty string Sample.encode "cl100k_base"
  ∧ tokenize_string string Sample.get_encoding Sample.encode
      Sample.provider_large "hi" "text-embedding-3-small"
    = Returns [104; 105]
  ∧ tokenize_string string Sample.get_encoding Sample.encode
      Sample.provider_large "hi" "gpt-4"
    = Raises (ValueError "OpenAI embedding model gpt-4 not supported.").
Proof.
  assert (Henc : Sample.get_encoding "cl100k_base" = Returns "cl100k_base")
    by reflexivity.
  assert (Hnonempty : encoder_nonempty string Sample.encode "cl100k_base").
  { intros text Htext. eexists. split; [reflexivity|].
    destruct text; [congruence|]. simpl. congruence. }
  destruct (tokenize_string_tokens string Sample.get_encoding Sample.encode
              Sample.provider_large "cl100k_base" Henc Hnonempty)
    as [Hsupported Hother].
  split; [exact Henc|]. split; [exact Hnonempty|]. split.
  - destruct (Hsupported "text-embedding-3-small" "hi") as [-> _].
    + eexists. reflexivity.
    + reflexivity.
  - apply Hother. reflexivity.
Defined.

(** ** At the edges of the statements above *)

(** A configured dimension of 0 is falsy: the constructor treats it as not
    set and takes the largest dimension of the model. *)
Example init_zero_dimension_defaults :
  __init__ Sample.super_init Sample.new_OpenAI Sample.new_AsyncOpenAI
      Sample.environ Sample.config_small_0
  = Returns {| client := Sample.the_client;
               async_client := Sample.the_async_client;
               self_base_model := "text-embedding-3-small";
               self_base_dimension := Some 1536 |}.
Proof. reflexivity. Qed.

(** An exception that derives from BaseException only passes both except
    clauses unchanged. *)
Example execute_task_cancelled_propagates :
  outcome (_execute_task Z Sample.truncate Sample.create_cancelled
             Sample.provider_large Sample.task_plain)
  = Raises Sample.cancelled
  ∧ outcome (_execute_task_sync Z Sample.truncate Sample.create_cancelled
               Sample.provider_large Sample.task_plain)
    = Raises Sample.cancelled.
Proof. split; reflexivity. Qed.

(** A malformed base URL surfaces as the client constructor's own
    exception, ahead of the checks on the rerank model, the model and the
    dimension. *)
Example init_client_error_comes_first :
  __init__ Sample.super_init SampleCalls.new_OpenAI_strict
    Sample.new_AsyncOpenAI SampleCalls.environ_bad_url
    SampleCalls.config_rerank
  = Raises SampleCalls.invalid_url
  ∧ __init__ Sample.super_init SampleCalls.new_OpenAI_strict
      Sample.new_AsyncOpenAI SampleCalls.environ_bad_url
      Sample.config_small_7
    = Raises SampleCalls.invalid_url.
Proof. split; reflexivity. Qed.

(** [repr] of a key: single quotes by default, double quotes around a
    string with a single quote in it, escapes for control characters. *)
Example py_repr_samples :
  py_repr "texts" = "'texts'"
  ∧ py_repr "it's"
    = String "034"%char ("it's" +:+ String "034"%char EmptyString)
  ∧ py_repr (String "009"%char "a") = "'\ta'"
  ∧ py_repr (String "160"%char EmptyString) = "'\xa0'"
  ∧ exc_str (KeyError "gpt-4") = "'gpt-4'".
Proof. repeat split. Qed.

(** A negative limit counts from the end of the list. *)
Example rerank_negative_limit :
  rerank Sample.provider_large "query" [1; 2; 3] None (Some (-1)) = [1; 2].
Proof. reflexivity. Qed.

(** A task without [texts] fails before the [try] block, with the
    KeyError unmapped. *)
Example execute_task_missing_texts :
  _execute_task_sync Z Sample.truncate Sample.create Sample.provider_large
    {| texts := None; stage := None; kwargs := None |}
  = ([], Raises (KeyError "texts")).
Proof. reflexivity. Qed.

(** * Further properties *)

(** ** The constructor, in full *)

Section ConstructorCharacterisation.

Variable super_init : EmbeddingConfig → Outcome unit.
Variable new_OpenAI : option string → option string → Outcome OpenAI.
Variable new_AsyncOpenAI :
  option string → option string → Outcome AsyncOpenAI.
Variable environ : gmap string string.

Local Abbreviation init :=
  (__init__ super_init new_OpenAI new_AsyncOpenAI environ).

(** X1: the constructor returns a provider exactly when the base-class
    initializer returns, the provider is [openai], the API key is in the
    environment, the two client constructors return their clients for the
    key and base URL of the environment, no rerank model is configured,
    the normalized model has a table entry and the dimension is either not
    set or in that entry; the provider then carries those two clients, the
    normalized model, and the configured dimension or the largest one. *)
Theorem init_returns_iff (config : EmbeddingConfig)
    (self : OpenAIEmbeddingProvider) :
  init config = Returns self
  ↔ earlier_checks_pass super_init environ config
    ∧ ∃ c ac m dims d,
        new_OpenAI (os_getenv environ "OPENAI_EMBEDDING_API_KEY")
          (os_getenv environ "OPENAI_EMBEDDING_API_BASE") = Returns c
        ∧ new_AsyncOpenAI (os_getenv environ "OPENAI_EMBEDDING_API_KEY")
            (os_getenv environ "OPENAI_EMBEDDING_API_BASE") = Returns ac
        ∧ normalized_base_model config = Some m
        ∧ MODEL_TO_DIMENSIONS !! m = Some dims
        ∧ (if truthy_int (base_dimension config)
           then base_dimension config = Some d ∧ d ∈ dims
           else py_max dims = Some d)
        ∧ self =
          {| client := c;
             async_client := ac;
             self_base_model := m;
             self_base_dimension := Some d |}.
Proof.
  split.
  - intros Hinit.
    assert (Hs : super_init config = Returns tt).
    { unfold __init__, mbind, Outcome_bind in Hinit.
      by destruct (super_init config) as [[]|]. }
    destruct (init_Returns_inv _ _ _ _ _ _ Hinit)
      as (Hp & Hkey & Hrr & Hm & _ & _ & Hc & Hac & dims & d & Hdims & Hd & Hif).
    split; [done|].
    exists (client self), (async_client self), (self_base_model self), dims, d.
    repeat split; try done.
    destruct self as [c ac m' d']; simpl in *. by subst.
  - intros [(Hs & Hp & Hkey & Hrr)
             (c & ac & m & dims & d & Hc & Hac & Hm & Hdims & Hif & ->)].
    assert (Hne : m ≠ "").
    { intros ->. apply MODEL_TO_DIMENSIONS_lookup in Hdims.
      by destruct Hdims as [[? _]|[[? _]|[? _]]]. }
    assert (Htok : is_Some (MODEL_TO_TOKENIZER !! m)).
    { apply tables_same_keys. eauto. }
    unfold __init__, mbind, Outcome_bind.
    rewrite Hs, Hp, Hkey, Hc, Hac, Hrr, Hm, Hdims. cbn [truthy_str negb].
    rewrite (bool_decide_eq_true_2 (Some "openai" = Some "openai") eq_refl).
    rewrite (bool_decide_eq_false_2 _ Hne), (bool_decide_eq_true_2 _ Htok).
    cbn [negb].
    destruct (base_dimension config) as [d0|] eqn:Hd0.
    + destruct (truthy_int (Some d0)).
      * destruct Hif as [[= <-] Hin].
        by rewrite (bool_decide_eq_true_2 _ Hin).
      * by rewrite Hif.
    + simpl in Hif. by rewrite Hif.
Qed.

(** X2: a configured rerank model makes the construction fail with its own
    ValueError as soon as the provider and the API key are in order and
    the two client constructors have returned, whatever the model and the
    dimension are. *)
Theorem init_rejects_rerank_model (config : EmbeddingConfig)
    (c : OpenAI) (ac : AsyncOpenAI) :
  super_init config = Returns tt →
  provider config = Some "openai" →
  truthy_str (os_getenv environ "OPENAI_EMBEDDING_API_KEY") = true →
  new_OpenAI (os_getenv environ "OPENAI_EMBEDDING_API_KEY")
    (os_getenv environ "OPENAI_EMBEDDING_API_BASE") = Returns c →
  new_AsyncOpenAI (os_getenv environ "OPENAI_EMBEDDING_API_KEY")
    (os_getenv environ "OPENAI_EMBEDDING_API_BASE") = Returns ac →
  truthy_str (rerank_model config) = true →
  init config
  = Raises (ValueError
      "OpenAIEmbeddingProvider does not support separate reranking.").
Proof.
  intros Hs Hp Hkey Hc Hac Hrr. unfold __init__, mbind, Outcome_bind.
  rewrite Hs, Hp, Hkey, Hc, Hac, Hrr. cbn [truthy_str negb].
  by rewrite (bool_decide_eq_true_2 (Some "openai" = Some "openai") eq_refl).
Qed.

(** X3: past the base-class initializer, an exception the constructor
    raises is either the one a client constructor raised, passed on as it
    is, or a ValueError without cause with one of the constructor's own
    seven messages: the two table subscripts never raise KeyError and
    [max] never sees an empty list. *)
Theorem init_raises_own_errors (config : EmbeddingConfig) (e : PyExc) :
  super_init config = Returns tt →
  init config = Raises e →
  new_OpenAI (os_getenv environ "OPENAI_EMBEDDING_API_KEY")
    (os_getenv environ "OPENAI_EMBEDDING_API_BASE") = Raises e
  ∨ new_AsyncOpenAI (os_getenv environ "OPENAI_EMBEDDING_API_KEY")
      (os_getenv environ "OPENAI_EMBEDDING_API_BASE") = Raises e
  ∨ ∃ msg, e = ValueError msg
    ∧ (msg = "Must set provider in order to initialize OpenAIEmbeddingProvider."
       ∨ msg = "OpenAIEmbeddingProvider must be initialized with provider `openai`."
       ∨ msg = "Must set OPENAI_EMBEDDING_API_KEY in order to initialize OpenAIEmbeddingProvider."
       ∨ msg = "OpenAIEmbeddingProvider does not support separate reranking."
       ∨ msg = "Must set base_model in order to initialize OpenAIEmbeddingProvider."
       ∨ (∃ m, normalized_base_model config = Some m
             ∧ MODEL_TO_TOKENIZER !! m = None
             ∧ msg = "OpenAI embedding model " +:+ m +:+ " not supported.")
       ∨ (∃ m d dims, normalized_base_model config = Some m
             ∧ base_dimension config = Some d
             ∧ MODEL_TO_DIMENSIONS !! m = Some dims
             ∧ (d ∉ dims)
             ∧ msg = "Dimensions " +:+ pretty d +:+ " for " +:+ m
                     +:+ " are not supported")).
Proof.
  intros Hs. unfold __init__, mbind, Outcome_bind. rewrite Hs.
  destruct (truthy_str (provider config)); cbn [negb];
    [|intros [= <-]; do 2 right; eexists; split; [done|]; auto].
  case_bool_decide; cbn [negb];
    [|intros [= <-]; do 2 right; eexists; split; [done|]; auto].
  destruct (truthy_str (os_getenv environ "OPENAI_EMBEDDING_API_KEY"));
    cbn [negb]; [|intros [= <-]; do 2 right; eexists; split; [done|]; auto].
  destruct (new_OpenAI _ _) as [c|e1]; [|intros [= <-]; by left].
  destruct (new_AsyncOpenAI _ _) as [ac|e2]; [|intros [= <-]; right; by left].
  destruct (truthy_str (rerank_model config));
    [intros [= <-]; do 2 right; eexists; split; [done|]; auto 10|].
  destruct (normalized_base_model config) as [m|];
    [|intros [= <-]; do 2 right; eexists; split; [done|]; auto 10].
  cbn [truthy_str]. case_bool_decide; cbn [negb];
    [intros [= <-]; do 2 right; eexists; split; [done|]; auto 10|].
  case_bool_decide as Htok; cbn [negb].
  - assert (Htok' := Htok).
    apply tables_same_keys in Htok'. destruct Htok' as [dims Hdims].
    rewrite Hdims.
    destruct (MODEL_TO_DIMENSIONS_entries _ _ Hdims) as [_ (largest & -> & _)].
    destruct (base_dimension config) as [d|]; [|done].
    destruct (truthy_int (Some d)); [|done].
    case_bool_decide as Hin; cbn [negb]; [done|].
    intros [= <-]. do 2 right. eexists. split; [done|].
    do 6 right. by exists m, d, dims.
  - intros [= <-]. do 2 right. eexists. split; [done|].
    do 5 right. left. exists m. repeat split.
    destruct (MODEL_TO_TOKENIZER !! m) eqn:E; [|done].
    exfalso. apply Htok. eauto.
Qed.

(** X4: on every constructed provider the two clients are what the two
    client constructors returned for the same arguments: as API key the
    non-empty value of OPENAI_EMBEDDING_API_KEY, as base URL the value of
    OPENAI_EMBEDDING_API_BASE, [None] when that is unset. *)
Theorem init_clients_share_credentials (config : EmbeddingConfig)
    (self : OpenAIEmbeddingProvider) :
  init config = Returns self →
  ∃ key, key ≠ ""
    ∧ environ !! "OPENAI_EMBEDDING_API_KEY" = Some key
    ∧ new_OpenAI (Some key) (environ !! "OPENAI_EMBEDDING_API_BASE")
      = Returns (client self)
    ∧ new_AsyncOpenAI (Some key) (environ !! "OPENAI_EMBEDDING_API_BASE")
      = Returns (async_client self).
Proof.
  intros Hinit.
  destruct (init_Returns_inv _ _ _ _ _ _ Hinit)
    as (_ & Hkey & _ & _ & _ & _ & Hc & Hac & _).
  unfold os_getenv in *.
  destruct (environ !! "OPENAI_EMBEDDING_API_KEY") as [key|]; [|done].
  exists key. repeat split; try done.
  simpl in Hkey. by case_bool_decide.
Qed.

End ConstructorCharacterisation.

(** ** Normalizing the model name *)

Lemma str_append_nil (b : string) : "" +:+ b = b.
Proof. reflexivity. Qed.

Lemma str_append_cons (x : ascii) (a b : string) :
  String x a +:+ b = String x (a +:+ b).
Proof. reflexivity. Qed.

Local Ltac str_simpl := rewrite ?str_append_cons, ?str_append_nil; simpl.

Lemma str_append_assoc (a b c : string) : (a +:+ b) +:+ c = a +:+ b +:+ c.
Proof. induction a as [|x a IH]; str_simpl; [done|]. by rewrite IH. Qed.

Lemma str_startswith_app (p rest : string) :
  str_startswith p (p +:+ rest) = true.
Proof.
  induction p as [|a p IH]; str_simpl; [done|].
  by rewrite (bool_decide_eq_true_2 (a = a) eq_refl).
Qed.

Lemma str_startswith_inv (p s : string) :
  str_startswith p s = true → ∃ rest, s = p +:+ rest.
Proof.
  revert s. induction p as [|a p IH]; intros s; simpl.
  - intros _. by exists s.
  - destruct s as [|b s]; [done|].
    case_bool_decide as Hab; simpl; [|done].
    intros H. destruct (IH _ H) as [rest ->]. exists rest. by subst.
Qed.

Lemma str_contains_startswith (sub s : string) :
  str_startswith sub s = true → str_contains sub s = true.
Proof. intros H. destruct s; simpl; by rewrite H. Qed.

(** [sub in s] holds exactly when [s] has [sub] somewhere inside. *)
Lemma str_contains_iff (sub s : string) :
  str_contains sub s = true ↔ ∃ pre post, s = pre +:+ sub +:+ post.
Proof.
  split.
  - induction s as [|a s IH]; simpl.
    + rewrite orb_false_r. intros H.
      destruct (str_startswith_inv _ _ H) as [rest ->]. by exists "", rest.
    + intros H. apply orb_true_iff in H. destruct H as [H|H].
      * destruct (str_startswith_inv _ _ H) as [rest ->]. by exists "", rest.
      * destruct (IH H) as (pre & post & ->). by exists (String a pre), post.
  - intros (pre & post & ->). induction pre as [|a pre IH]; str_simpl.
    + apply str_contains_startswith, str_startswith_app.
    + rewrite IH. apply orb_true_r.
Qed.

Lemma str_split_nonempty (sep : ascii) (s : string) : str_split sep s ≠ [].
Proof.
  destruct s as [|a s]; simpl; [done|].
  case_bool_decide; [done|]. by destruct (str_split sep s).
Qed.

(** A string without the separator is its own single piece. *)
Lemma str_split_no_sep (sep : ascii) (s : string) :
  str_contains (String sep "") s = false → str_split sep s = [s].
Proof.
  induction s as [|a s IH]; simpl; [done|].
  intros H. apply orb_false_iff in H. destruct H as [Hhead Htail].
  case_bool_decide as Ha; [done|].
  rewrite (bool_decide_eq_false_2 (a = sep)) by congruence.
  by rewrite (IH Htail).
Qed.

(** A string with the separator splits into at least two pieces. *)
Lemma str_split_two_pieces (sep : ascii) (s1 s2 : string) :
  ∃ x y l, str_split sep (s1 +:+ String sep s2) = x :: y :: l.
Proof.
  induction s1 as [|a s1 (x & y & l & IH)]; str_simpl.
  - rewrite (bool_decide_eq_true_2 (sep = sep) eq_refl).
    destruct (str_split sep s2) as [|y l] eqn:E.
    + by apply str_split_nonempty in E.
    + by exists "", y, l.
  - rewrite IH. case_bool_decide; eauto.
Qed.

(** The last piece is the text after the last separator. *)
Lemma last_str_split_app (sep : ascii) (s1 s2 : string) :
  last (str_split sep (s1 +:+ String sep s2)) = last (str_split sep s2).
Proof.
  induction s1 as [|a s1 IH]; str_simpl.
  - rewrite (bool_decide_eq_true_2 (sep = sep) eq_refl).
    destruct (str_split sep s2) as [|y l] eqn:E; [|done].
    by apply str_split_nonempty in E.
  - destruct (str_split_two_pieces sep s1 s2) as (x & y & l & E).
    rewrite E in IH |- *. case_bool_decide.
    + by rewrite last_cons_cons.
    + by rewrite last_cons_cons, <- IH, last_cons_cons.
Qed.

(** The last piece of any split has no separator in it, and the string is
    that piece or ends in the separator followed by that piece. *)
Lemma last_str_split_spec (sep : ascii) (s : string) :
  ∃ t, last (str_split sep s) = Some t
    ∧ str_contains (String sep "") t = false
    ∧ (s = t ∨ ∃ pre, s = pre +:+ String sep t).
Proof.
  induction s as [|a s (t & Hlast & Hfree & Hshape)].
  - exists "". repeat split. by left.
  - destruct (decide (a = sep)) as [->|Hne].
    + exists t. simpl. rewrite (bool_decide_eq_true_2 (sep = sep) eq_refl).
      repeat split; [|done|].
      * rewrite last_cons, Hlast. done.
      * right. destruct Hshape as [->|[pre ->]].
        -- by exists "".
        -- by exists (String sep pre).
    + destruct Hshape as [->|[pre ->]].
      * exists (String a t). simpl.
        rewrite (bool_decide_eq_false_2 _ Hne), (str_split_no_sep _ _ Hfree).
        repeat split; [|by left].
        rewrite (bool_decide_eq_false_2 (sep = a)) by congruence.
        simpl. destruct t; simpl in *; done.
      * exists t. str_simpl. rewrite (bool_decide_eq_false_2 _ Hne).
        destruct (str_split_two_pieces sep pre t) as (x & y & l & E).
        rewrite E in Hlast |- *.
        repeat split; [|done|].
        -- by rewrite last_cons_cons, <- Hlast, last_cons_cons.
        -- right. by exists (String a pre).
Qed.

(** X5: the constructor's model name: a configured name without [openai/] in
    it is kept as it is; one with [openai/] anywhere in it is cut down to
    the text after its last slash, which has no slash left in it. *)
Theorem normalized_base_model_spec (config : EmbeddingConfig) (bm : string) :
  base_model config = Some bm →
  (str_contains "openai/" bm = false →
   normalized_base_model config = Some bm)
  ∧ (str_contains "openai/" bm = true →
     ∃ pre m, bm = pre +:+ "/" +:+ m
       ∧ str_contains "/" m = false
       ∧ normalized_base_model config = Some m).
Proof.
  intros Hbm. unfold normalized_base_model. rewrite Hbm. split.
  - intros ->. by rewrite andb_false_r.
  - intros Hin. rewrite Hin.
    assert (Hne : bm ≠ "") by (by intros ->).
    cbn [truthy_str]. rewrite (bool_decide_eq_false_2 _ Hne). cbn [negb andb].
    destruct (last_str_split_spec "/" bm) as (t & Hlast & Hfree & Hshape).
    destruct Hshape as [->|[pre ->]].
    + exfalso. apply str_contains_iff in Hin. destruct Hin as (pre & post & ->).
      assert (str_contains "/" (pre +:+ "openai/" +:+ post) = true) as Hslash.
      { apply str_contains_iff. exists (pre +:+ "openai"), post.
        by rewrite str_append_assoc. }
      by rewrite Hslash in Hfree.
    + by exists pre, t.
Qed.

(** X6: the [openai/] prefix is optional: for a name [m] without a slash, the
    configurations naming [openai/m] and [m] construct the same provider
    or fail with the same error, the base-class initializer treating the
    two alike. *)
Theorem init_openai_prefix_optional
    (super_init : EmbeddingConfig → Outcome unit)
    (new_OpenAI : option string → option string → Outcome OpenAI)
    (new_AsyncOpenAI : option string → option string → Outcome AsyncOpenAI)
    (environ : gmap string string) (config : EmbeddingConfig) (m : string) :
  str_contains "/" m = false →
  super_init (with_base_model config (Some ("openai/" +:+ m)))
  = super_init (with_base_model config (Some m)) →
  normalized_base_model (with_base_model config (Some ("openai/" +:+ m)))
  = Some m
  ∧ __init__ super_init new_OpenAI new_AsyncOpenAI environ
      (with_base_model config (Some ("openai/" +:+ m)))
    = __init__ super_init new_OpenAI new_AsyncOpenAI environ (with_base_model config (Some m)).
Proof.
  intros Hfree Hsuper.
  assert (Hprefixed :
    normalized_base_model (with_base_model config (Some ("openai/" +:+ m)))
    = Some m).
  { unfold normalized_base_model, with_base_model. cbn [base_model].
    assert (str_contains "openai/" ("openai/" +:+ m) = true) as ->.
    { apply str_contains_iff. by exists "", m. }
    cbn [truthy_str]. rewrite bool_decide_eq_false_2 by done.
    cbn [negb andb].
    change ("openai/" +:+ m) with ("openai" +:+ String "/" m).
    by rewrite last_str_split_app, (str_split_no_sep _ _ Hfree). }
  assert (Hplain :
    normalized_base_model (with_base_model config (Some m)) = Some m).
  { unfold normalized_base_model, with_base_model. cbn [base_model].
    destruct (str_contains "openai/" m) eqn:Hin; [|by rewrite andb_false_r].
    exfalso. apply str_contains_iff in Hin. destruct Hin as (pre & post & ->).
    assert (str_contains "/" (pre +:+ "openai/" +:+ post) = true) as Hslash.
    { apply str_contains_iff. exists (pre +:+ "openai"), post.
      by rewrite str_append_assoc. }
    by rewrite Hslash in Hfree. }
  split; [done|].
  unfold __init__. rewrite Hsuper, Hprefixed, Hplain. done.
Qed.

(** ** Request parameters, on any provider object *)

(** X7: on a constructed provider the request parameters are always built,
    their keys are the caller's together with [model] and [dimensions],
    every entry of the caller is kept as the caller gave it, and [model]
    is the configured model unless the caller names one. *)
Theorem get_embedding_kwargs_merge
    (super_init : EmbeddingConfig → Outcome unit)
    (new_OpenAI : option string → option string → Outcome OpenAI)
    (new_AsyncOpenAI : option string → option string → Outcome AsyncOpenAI)
    (environ : gmap string string) (config : EmbeddingConfig)
    (self : OpenAIEmbeddingProvider) (kw : gmap string PyVal) :
  __init__ super_init new_OpenAI new_AsyncOpenAI environ config = Returns self →
  ∃ params,
    _get_embedding_kwargs self kw = Returns params
    ∧ dom params = dom kw ∪ {["model"; "dimensions"]}
    ∧ (∀ k v, kw !! k = Some v → params !! k = Some v)
    ∧ (kw !! "model" = None →
       params !! "model" = Some (VStr (self_base_model self))).
Proof.
  intros Hinit.
  destruct (get_dimensions_constructed _ _ _ _ _ _ Hinit) as (d & _ & Hdim).
  eexists. split; [by apply get_embedding_kwargs_Returns|].
  split; [|split].
  - rewrite dom_union_L, !dom_insert_L, dom_empty_L. set_solver.
  - intros k v Hk. by apply lookup_union_Some_l.
  - intros Hnone. by rewrite merged_lookup_model, Hnone.
Qed.

(** X8: for a model other than ada, [_get_dimensions] gives a truthy
    base_dimension back without consulting the table; with base_dimension
    [None] or [0] it falls back to the last table entry of the model, which
    is the largest one, the constructor's default; and without a table
    entry either the subscript raises KeyError. *)
Theorem get_dimensions_fallback (self : OpenAIEmbeddingProvider) :
  self_base_model self ≠ "text-embedding-ada-002" →
  (truthy_int (self_base_dimension self) = true →
   ∃ d, self_base_dimension self = Some d ∧ d ≠ 0
     ∧ _get_dimensions self = Returns (VInt d))
  ∧ (truthy_int (self_base_dimension self) = false →
     ∀ dims, MODEL_TO_DIMENSIONS !! self_base_model self = Some dims →
       ∃ d, py_max dims = Some d ∧ _get_dimensions self = Returns (VInt d))
  ∧ (truthy_int (self_base_dimension self) = false →
     MODEL_TO_DIMENSIONS !! self_base_model self = None →
     _get_dimensions self = Raises (KeyError (self_base_model self))).
Proof.
  intros Hother. unfold _get_dimensions.
  rewrite (bool_decide_eq_false_2 _ Hother). repeat split.
  - intros Ht. rewrite Ht.
    destruct (self_base_dimension self) as [d|]; [|done].
    exists d. repeat split. simpl in Ht. by case_bool_decide.
  - intros Hf dims Hdims. rewrite Hf, Hdims.
    destruct (MODEL_TO_DIMENSIONS_entries _ _ Hdims)
      as [_ (largest & Hmax & -> & _)].
    by exists largest.
  - intros Hf Hnone. by rewrite Hf, Hnone.
Qed.

(** ** The request paths, run by run *)

Section RunProperties.

Variable float : Type.
Variable truncate_texts_to_token_limit :
  list string → PyVal → Outcome (list string).
Variable embeddings_create :
  OpenAI → list string → gmap string PyVal
  → Outcome (CreateEmbeddingResponse float).
Variable async_embeddings_create :
  AsyncOpenAI → list string → gmap string PyVal
  → Outcome (CreateEmbeddingResponse float).

Local Abbreviation execute_task :=
  (_execute_task float truncate_texts_to_token_limit async_embeddings_create).
Local Abbreviation execute_task_sync :=
  (_execute_task_sync float truncate_texts_to_token_limit embeddings_create).

(** Both paths opened up, every outside answer split into its cases. *)
Local Ltac open_paths :=
  unfold _execute_task, _execute_task_sync, task_texts, pure,
    except_clauses, try_except, suppress_Exception, call, raise,
    mbind, Exec_bind, mret, Exec_ret, calls, outcome.

Local Ltac split_answers :=
  repeat (cbn [fst snd app]; match goal with
  | |- context [truthy ?v] => destruct (truthy v) eqn:?
  | |- context [truncate_texts_to_token_limit ?t ?m] =>
      destruct (truncate_texts_to_token_limit t m) eqn:?
  | |- context [async_embeddings_create ?c ?i ?p] =>
      destruct (async_embeddings_create c i p) eqn:?
  | |- context [embeddings_create ?c ?i ?p] =>
      destruct (embeddings_create c i p) eqn:?
  | |- context [isinstance_AuthenticationError ?e] =>
      destruct (isinstance_AuthenticationError e) eqn:?
  | |- context [isinstance_Exception ?e] =>
      destruct (isinstance_Exception e) eqn:?
  end); cbn [fst snd app].

Local Ltac sorted_ranks :=
  cbn [fmap list_fmap call_rank]; repeat constructor.

Local Ltac no_calls :=
  split; [sorted_ranks|];
  split; [intros ? []%elem_of_nil | intros ? []%elem_of_nil].

(** AuthenticationError is a subclass of Exception. *)
Lemma AuthenticationError_is_Exception (e : PyExc) :
  isinstance_AuthenticationError e = true → isinstance_Exception e = true.
Proof.
  unfold isinstance_AuthenticationError, isinstance_Exception.
  by destruct (exc_class e).
Qed.

(** X9: a run never retries and never mixes the clients: its outside calls are
    at most one truncation, then at most one request, then at most one
    log line, in that order; the asynchronous path only ever calls the
    asynchronous client and the synchronous path the synchronous one; and
    a log line is written only after a request was made. *)
Theorem run_calls_in_order (self : OpenAIEmbeddingProvider) (task : Task) :
  (StronglySorted lt (call_rank <$> calls (execute_task self task))
   ∧ (∀ ev, ev ∈ calls (execute_task self task) →
        is_create_call ev = true →
        ∃ input params, ev = AsyncCreateCall (async_client self) input params)
   ∧ (∀ msg, LogError msg ∈ calls (execute_task self task) →
        ∃ ev, ev ∈ calls (execute_task self task)
              ∧ is_create_call ev = true))
  ∧ (StronglySorted lt (call_rank <$> calls (execute_task_sync self task))
     ∧ (∀ ev, ev ∈ calls (execute_task_sync self task) →
          is_create_call ev = true →
          ∃ input params, ev = CreateCall (client self) input params)
     ∧ (∀ msg, LogError msg ∈ calls (execute_task_sync self task) →
          ∃ ev, ev ∈ calls (execute_task_sync self task)
                ∧ is_create_call ev = true)).
Proof.
  split; open_paths;
    (destruct (texts task) as [t|]; cbn [fst snd app]; [|no_calls]);
    (destruct (_get_embedding_kwargs self (task_kwargs task)) as [params|];
      cbn [fst snd app]; [|no_calls]);
    split_answers;
    (split; [sorted_ranks|]; split;
      [ intros ev Hev Hcreate;
        repeat (apply elem_of_cons in Hev; destruct Hev as [->|Hev]);
        try apply elem_of_nil in Hev; try done; eauto
      | intros msg Hev;
        repeat (apply elem_of_cons in Hev; destruct Hev as [Heq|Hev]);
        try discriminate Heq; try (by apply elem_of_nil in Hev);
        first [ by (eexists; split; [apply list_elem_of_here|])
              | by (eexists; split;
                    [apply list_elem_of_further, list_elem_of_here|]) ] ]).
Qed.

(** X10: failures ahead of the [try] block are not mapped: a task without
    [texts] raises KeyError, and an exception raised while the request
    parameters are built passes through as it is; in both cases no outside
    call is made, on either path. *)
Theorem errors_before_try_unmapped (self : OpenAIEmbeddingProvider)
    (task : Task) :
  (texts task = None →
   execute_task self task = ([], Raises (KeyError "texts"))
   ∧ execute_task_sync self task = ([], Raises (KeyError "texts")))
  ∧ (∀ t e, texts task = Some t →
       _get_embedding_kwargs self (task_kwargs task) = Raises e →
       execute_task self task = ([], Raises e)
       ∧ execute_task_sync self task = ([], Raises e)).
Proof.
  split.
  - intros Hnone. open_paths. by rewrite Hnone.
  - intros t e Ht Hkw. open_paths. rewrite Ht. cbn [fst snd app].
    by rewrite Hkw.
Qed.

(** X11: the only exceptions of class Exception that leave a path are the
    KeyError of a task without [texts], an exception raised while the
    request parameters are built, and a ValueError whose cause is an
    Exception raised by the request itself. *)
Theorem escaping_exceptions (self : OpenAIEmbeddingProvider) (task : Task)
    (e : PyExc) :
  isinstance_Exception e = true →
  (outcome (execute_task self task) = Raises e →
   (texts task = None ∧ e = KeyError "texts")
   ∨ _get_embedding_kwargs self (task_kwargs task) = Raises e
   ∨ ∃ msg cause input params,
       e = ValueError_from msg cause
       ∧ isinstance_Exception cause = true
       ∧ async_embeddings_create (async_client self) input params
         = Raises cause)
  ∧ (outcome (execute_task_sync self task) = Raises e →
     (texts task = None ∧ e = KeyError "texts")
     ∨ _get_embedding_kwargs self (task_kwargs task) = Raises e
     ∨ ∃ msg cause input params,
         e = ValueError_from msg cause
         ∧ isinstance_Exception cause = true
         ∧ embeddings_create (client self) input params = Raises cause).
Proof.
  intros He.
  split; open_paths;
    (destruct (texts task) as [t|];
      [|cbn [fst snd]; intros [= <-]; by left]);
    cbn [fst snd app];
    (destruct (_get_embedding_kwargs self (task_kwargs task)) as [params|];
      [|cbn [fst snd]; intros [= <-]; right; by left]);
    cbn [fst snd app]; split_answers; intros [= <-];
    try congruence;
    try match goal with
        | H1 : isinstance_Exception ?x = false,
          H2 : isinstance_AuthenticationError ?x = true |- _ =>
            apply AuthenticationError_is_Exception in H2; congruence
        end;
    right; right; do 4 eexists; (split; [reflexivity|]);
    (split; [|eassumption]);
    first [ assumption | by apply AuthenticationError_is_Exception ].
Qed.

(** X12: a successful request returns one vector for each item of the
    response, in the order of the response, and writes no log line. *)
Theorem successful_request (self : OpenAIEmbeddingProvider) (task : Task)
    (t input : list string) (params : gmap string PyVal)
    (response : CreateEmbeddingResponse float) :
  texts task = Some t →
  _get_embedding_kwargs self (task_kwargs task) = Returns params →
  sent_texts truncate_texts_to_token_limit t params = Some input →
  (async_embeddings_create (async_client self) input params
   = Returns response →
   outcome (execute_task self task) = Returns (embedding <$> data response)
   ∧ ∀ msg, LogError msg ∉ calls (execute_task self task))
  ∧ (embeddings_create (client self) input params = Returns response →
     outcome (execute_task_sync self task)
     = Returns (embedding <$> data response)
     ∧ ∀ msg, LogError msg ∉ calls (execute_task_sync self task)).
Proof.
  intros Ht Hkw Hsent. unfold sent_texts in Hsent.
  split; intros Hcall; open_paths; rewrite Ht; cbn [fst snd app];
    rewrite Hkw; cbn [fst snd app];
    destruct (truthy (kwargs_get_model params));
    try (destruct (truncate_texts_to_token_limit t (kwargs_get_model params))
           as [t'|e'];
         [|destruct (isinstance_Exception e'); [|discriminate]]);
    injection Hsent as <-; cbn [fst snd app]; rewrite Hcall;
    cbn [fst snd app]; (split; [done|]); intros msg Hin;
    repeat (apply elem_of_cons in Hin; destruct Hin as [?|Hin]);
    try apply elem_of_nil in Hin; done.
Qed.

(** X13: without a truthy model in the request parameters no truncation takes
    place: the first and only outside call before any log line is the
    request, with the task's texts as they are. *)
Theorem no_model_no_truncation (self : OpenAIEmbeddingProvider) (task : Task)
    (t : list string) (params : gmap string PyVal) :
  texts task = Some t →
  _get_embedding_kwargs self (task_kwargs task) = Returns params →
  truthy (kwargs_get_model params) = false →
  (∃ rest, calls (execute_task self task)
           = AsyncCreateCall (async_client self) t params :: rest
           ∧ ∀ ev, ev ∈ rest → is_log_call ev = true)
  ∧ (∃ rest, calls (execute_task_sync self task)
             = CreateCall (client self) t params :: rest
             ∧ ∀ ev, ev ∈ rest → is_log_call ev = true).
Proof.
  intros Ht Hkw Hmodel.
  split; open_paths; rewrite Ht; cbn [fst snd app]; rewrite Hkw;
    cbn [fst snd app]; rewrite Hmodel; cbn [fst snd app]; split_answers;
    eexists; (split; [reflexivity|]); intros ev Hin;
    repeat (apply elem_of_cons in Hin; destruct Hin as [->|Hin]);
    try apply elem_of_nil in Hin; done.
Qed.

(** X14: a truncation that raises past [suppress(Exception)], with an
    exception deriving from BaseException only, ends the run: no request
    is made and the exception leaves the path as it is. *)
Theorem truncation_base_exception_ends_run (self : OpenAIEmbeddingProvider)
    (task : Task) (t : list string) (params : gmap string PyVal) (e : PyExc) :
  texts task = Some t →
  _get_embedding_kwargs self (task_kwargs task) = Returns params →
  truthy (kwargs_get_model params) = true →
  truncate_texts_to_token_limit t (kwargs_get_model params) = Raises e →
  isinstance_Exception e = false →
  execute_task self task
  = ([TruncateCall t (kwargs_get_model params)], Raises e)
  ∧ execute_task_sync self task
    = ([TruncateCall t (kwargs_get_model params)], Raises e).
Proof.
  intros Ht Hkw Hmodel Htr He.
  assert (Hauth : isinstance_AuthenticationError e = false).
  { unfold isinstance_Exception, isinstance_AuthenticationError in *.
    by destruct (exc_class e). }
  split; open_paths; rewrite Ht; cbn [fst snd app]; rewrite Hkw;
    cbn [fst snd app]; rewrite Hmodel, Htr, He; cbn [fst snd app];
    by rewrite Hauth, He.
Qed.

(** X15: a rejected API key is reported without a log line; every other mapped
    failure of the request is logged once, as the last call of the run,
    with exactly the message of the ValueError that is raised. *)
Theorem failures_logged (self : OpenAIEmbeddingProvider) (task : Task)
    (t input : list string) (params : gmap string PyVal) (e : PyExc) :
  texts task = Some t →
  _get_embedding_kwargs self (task_kwargs task) = Returns params →
  sent_texts truncate_texts_to_token_limit t params = Some input →
  isinstance_Exception e = true →
  (async_embeddings_create (async_client self) input params = Raises e →
   if isinstance_AuthenticationError e
   then ∀ msg, LogError msg ∉ calls (execute_task self task)
   else ∃ msg, last (calls (execute_task self task)) = Some (LogError msg)
          ∧ outcome (execute_task self task) = Raises (ValueError_from msg e))
  ∧ (embeddings_create (client self) input params = Raises e →
     if isinstance_AuthenticationError e
     then ∀ msg, LogError msg ∉ calls (execute_task_sync self task)
     else ∃ msg,
            last (calls (execute_task_sync self task)) = Some (LogError msg)
            ∧ outcome (execute_task_sync self task)
              = Raises (ValueError_from msg e)).
Proof.
  intros Ht Hkw Hsent He. unfold sent_texts in Hsent.
  split; intros Hcall; open_paths; rewrite Ht; cbn [fst snd app];
    rewrite Hkw; cbn [fst snd app];
    destruct (truthy (kwargs_get_model params));
    try (destruct (truncate_texts_to_token_limit t (kwargs_get_model params))
           as [t'|e'];
         [|destruct (isinstance_Exception e'); [|discriminate]]);
    injection Hsent as <-; cbn [fst snd app]; rewrite Hcall;
    cbn [fst snd app]; rewrite He;
    destruct (isinstance_AuthenticationError e); cbn [fst snd app];
    try (by eexists);
    intros msg Hin;
    repeat (apply elem_of_cons in Hin; destruct Hin as [?|Hin]);
    try apply elem_of_nil in Hin; done.
Qed.

End RunProperties.

(** ** Reranking, for every limit *)

(** X16: whatever the limit, rerank and arerank agree, return a prefix of the
    input (no element added, changed or moved) and look at neither the
    provider, the query nor the stage. *)
Theorem rerank_prefix {R} (self self' : OpenAIEmbeddingProvider)
    (query query' : string) (results : list R) (stage stage' : option Step)
    (limit : option Z) :
  rerank self query results stage limit `prefix_of` results
  ∧ arerank self query results stage limit
    = rerank self query results stage limit
  ∧ rerank self' query' results stage' limit
    = rerank self query results stage limit.
Proof.
  repeat split. unfold rerank, slice_to.
  eexists. symmetry. apply take_drop.
Qed.

(** X17: a negative limit counts from the end: the last [-limit] results are
    dropped, and nothing is left once [-limit] reaches the length of the
    list. *)
Theorem rerank_negative_limit_drops {R} (self : OpenAIEmbeddingProvider)
    (query : string) (results : list R) (stage : option Step) (limit : Z) :
  limit < 0 →
  rerank self query results stage (Some limit)
    = take (length results - Z.to_nat (- limit)) results
  ∧ Z.of_nat (length (rerank self query results stage (Some limit)))
    = Z.max 0 (Z.of_nat (length results) + limit)
  ∧ (Z.of_nat (length results) ≤ - limit →
     rerank self query results stage (Some limit) = []).
Proof.
  intros Hneg. unfold rerank, slice_to. cbv zeta.
  change (default 10 (Some limit)) with limit.
  assert ((limit <? 0) = true) as -> by (apply Z.ltb_lt; lia).
  replace (Z.to_nat (Z.max 0 (limit + Z.of_nat (length results))))
    with (length results - Z.to_nat (- limit))%nat by lia.
  repeat split.
  - rewrite length_take. lia.
  - intros Hall.
    assert ((length results - Z.to_nat (- limit))%nat = 0%nat) as -> by lia.
    done.
Qed.

(** X18: with a non-negative limit, reranking what rerank returned changes
    nothing. *)
Theorem rerank_idempotent {R} (self : OpenAIEmbeddingProvider)
    (query : string) (results : list R) (stage : option Step)
    (limit : option Z) :
  0 ≤ default 10 limit →
  rerank self query (rerank self query results stage limit) stage limit
  = rerank self query results stage limit.
Proof.
  intros Hlimit. unfold rerank.
  rewrite !(slice_to_nonneg _ _ Hlimit), length_take, take_take.
  f_equal. lia.
Qed.

(** ** Tokenization, for every tokenizer *)

(** X19: the model only selects the encoding, and every supported model
    selects cl100k_base: tokenize_string gives the same result for any two
    supported models, namely what the tokenizer gives, its exceptions
    included and unmapped. *)
Theorem tokenize_string_model_independent (Encoding : Type)
    (tiktoken_get_encoding : string → Outcome Encoding)
    (encode : Encoding → string → Outcome (list Z))
    (self : OpenAIEmbeddingProvider) (text model model' : string) :
  is_Some (MODEL_TO_TOKENIZER !! model) →
  is_Some (MODEL_TO_TOKENIZER !! model') →
  tokenize_string Encoding tiktoken_get_encoding encode self text model
  = tokenize_string Encoding tiktoken_get_encoding encode self text model'
  ∧ (∀ e, tiktoken_get_encoding "cl100k_base" = Raises e →
       tokenize_string Encoding tiktoken_get_encoding encode self text model
       = Raises e)
  ∧ (∀ encoding, tiktoken_get_encoding "cl100k_base" = Returns encoding →
       tokenize_string Encoding tiktoken_get_encoding encode self text model
       = encode encoding text).
Proof.
  intros [name Hname] [name' Hname']. unfold tokenize_string.
  rewrite Hname, Hname'.
  apply MODEL_TO_TOKENIZER_lookup in Hname, Hname'.
  destruct Hname as [_ ->], Hname' as [_ ->].
  unfold mbind, Outcome_bind. repeat split.
  - by intros e ->.
  - by intros encoding ->.
Qed.

(** ** The embedding entry points *)

Section EntryPointProperties.

Variable float : Type.
Variable _execute_with_backoff_async :
  OpenAIEmbeddingProvider → Task → Exec (list (list float)).
Variable _execute_with_backoff_sync :
  OpenAIEmbeddingProvider → Task → Exec (list (list float)).

Local Abbreviation async_get_embedding' :=
  (async_get_embedding float _execute_with_backoff_async).
Local Abbreviation get_embedding' :=
  (get_embedding float _execute_with_backoff_sync).
Local Abbreviation async_get_embeddings' :=
  (async_get_embeddings float _execute_with_backoff_async).
Local Abbreviation get_embeddings' :=
  (get_embeddings float _execute_with_backoff_sync).

(** X20: every entry point refuses a stage other than BASE with the same
    ValueError before it does anything else: the retry wrapper is not
    entered and no outside call is made. *)
Theorem entry_points_reject_other_stage (self : OpenAIEmbeddingProvider)
    (text : string) (input : list string) (stage : Step)
    (kw : gmap string PyVal) :
  stage ≠ BASE →
  async_get_embedding' self text (Some stage) kw
  = ([], Raises (ValueError
                   "OpenAIEmbeddingProvider only supports search stage."))
  ∧ get_embedding' self text (Some stage) kw
    = ([], Raises (ValueError
                     "OpenAIEmbeddingProvider only supports search stage."))
  ∧ async_get_embeddings' self input (Some stage) kw
    = ([], Raises (ValueError
                     "OpenAIEmbeddingProvider only supports search stage."))
  ∧ get_embeddings' self input (Some stage) kw
    = ([], Raises (ValueError
                     "OpenAIEmbeddingProvider only supports search stage.")).
Proof.
  intros Hstage.
  unfold async_get_embedding, get_embedding, async_get_embeddings,
    get_embeddings. cbn [default].
  by rewrite (bool_decide_eq_true_2 _ Hstage).
Qed.

(** X21: embedding one text is embedding the one-element batch and taking the
    first vector of the result: same calls, same errors, and an IndexError
    when the batch comes back empty. *)
Theorem get_embedding_is_first_of_batch (self : OpenAIEmbeddingProvider)
    (text : string) (stage : option Step) (kw : gmap string PyVal) :
  get_embedding' self text stage kw
  = (result ← get_embeddings' self [text] stage kw; getitem_0 result)
  ∧ async_get_embedding' self text stage kw
    = (result ← async_get_embeddings' self [text] stage kw; getitem_0 result)
  ∧ (∀ log, get_embeddings' self [text] stage kw = (log, Returns []) →
       get_embedding' self text stage kw = (log, Raises IndexError))
  ∧ (∀ log vector rest,
       get_embeddings' self [text] stage kw
       = (log, Returns (vector :: rest)) →
       get_embedding' self text stage kw = (log, Returns vector)).
Proof.
  assert (Hsync : get_embedding' self text stage kw
    = (result ← get_embeddings' self [text] stage kw; getitem_0 result)).
  { unfold get_embedding, get_embeddings. by case_bool_decide. }
  split; [done|]. split.
  - unfold async_get_embedding, async_get_embeddings. by case_bool_decide.
  - split.
    + intros log Hbatch. rewrite Hsync, Hbatch.
      unfold mbind, Exec_bind, getitem_0, raise. cbn [fst snd].
      by rewrite app_nil_r.
    + intros log vector rest Hbatch. rewrite Hsync, Hbatch.
      unfold mbind, Exec_bind, getitem_0, mret, Exec_ret. cbn [fst snd].
      by rewrite app_nil_r.
Qed.

(** With the stage omitted or BASE, the batch entry points hand the retry
    wrapper one task, holding the texts, the stage BASE and the caller's
    keyword arguments, and return its result as it is. *)
Lemma get_embeddings_delegates (self : OpenAIEmbeddingProvider)
    (input : list string) (stage : option Step) (kw : gmap string PyVal) :
  default BASE stage = BASE →
  get_embeddings' self input stage kw
  = _execute_with_backoff_sync self
      {| texts := Some input; stage := Some BASE; kwargs := Some kw |}
  ∧ async_get_embeddings' self input stage kw
    = _execute_with_backoff_async self
        {| texts := Some input; stage := Some BASE; kwargs := Some kw |}.
Proof.
  intros Hstage. unfold get_embeddings, async_get_embeddings.
  rewrite Hstage. by rewrite bool_decide_eq_false_2 by (by intros []).
Qed.

End EntryPointProperties.

(** ** The statements above at sample inputs *)

Lemma init_rejects_rerank_model_witness :
  truthy_str (rerank_model SampleCalls.config_rerank) = true
  ∧ Sample.new_OpenAI (os_getenv Sample.environ "OPENAI_EMBEDDING_API_KEY")
      (os_getenv Sample.environ "OPENAI_EMBEDDING_API_BASE")
    = Returns Sample.the_client
  ∧ __init__ Sample.super_init Sample.new_OpenAI Sample.new_AsyncOpenAI
      Sample.environ SampleCalls.config_rerank
    = Raises (ValueError
        "OpenAIEmbeddingProvider does not support separate reranking.").
Proof.
  split; [reflexivity|]. split; [reflexivity|].
  apply (init_rejects_rerank_model Sample.super_init Sample.new_OpenAI
           Sample.new_AsyncOpenAI Sample.environ SampleCalls.config_rerank
           Sample.the_client Sample.the_async_client); reflexivity.
Defined.

Lemma init_raises_own_errors_witness :
  __init__ Sample.super_init SampleCalls.new_OpenAI_strict
    Sample.new_AsyncOpenAI SampleCalls.environ_bad_url Sample.config_large
  = Raises SampleCalls.invalid_url
  ∧ (SampleCalls.new_OpenAI_strict
       (os_getenv SampleCalls.environ_bad_url "OPENAI_EMBEDDING_API_KEY")
       (os_getenv SampleCalls.environ_bad_url "OPENAI_EMBEDDING_API_BASE")
     = Raises SampleCalls.invalid_url
     ∨ Sample.new_AsyncOpenAI
         (os_getenv SampleCalls.environ_bad_url "OPENAI_EMBEDDING_API_KEY")
         (os_getenv SampleCalls.environ_bad_url "OPENAI_EMBEDDING_API_BASE")
       = Raises SampleCalls.invalid_url
     ∨ ∃ msg, SampleCalls.invalid_url = ValueError msg).
Proof.
  assert (Hinit : __init__ Sample.super_init SampleCalls.new_OpenAI_strict
                    Sample.new_AsyncOpenAI SampleCalls.environ_bad_url
                    Sample.config_large = Raises SampleCalls.invalid_url)
    by reflexivity.
  split; [exact Hinit|].
  destruct (init_raises_own_errors Sample.super_init
              SampleCalls.new_OpenAI_strict Sample.new_AsyncOpenAI
              SampleCalls.environ_bad_url Sample.config_large
              SampleCalls.invalid_url eq_refl Hinit)
    as [Hsync|[Hasync|(msg & Hmsg & _)]].
  - left. exact Hsync.
  - right. left. exact Hasync.
  - right. right. exists msg. exact Hmsg.
Defined.

Lemma init_clients_share_credentials_witness :
  __init__ Sample.super_init Sample.new_OpenAI Sample.new_AsyncOpenAI
      Sample.environ Sample.config_large
    = Returns Sample.provider_large
  ∧ ∃ key, key ≠ ""
      ∧ Sample.new_OpenAI (Some key)
          (Sample.environ !! "OPENAI_EMBEDDING_API_BASE")
        = Returns (client Sample.provider_large)
      ∧ Sample.new_AsyncOpenAI (Some key)
          (Sample.environ !! "OPENAI_EMBEDDING_API_BASE")
        = Returns (async_client Sample.provider_large).
Proof.
  assert (Hinit : __init__ Sample.super_init Sample.new_OpenAI
                    Sample.new_AsyncOpenAI Sample.environ
                    Sample.config_large = Returns Sample.provider_large)
    by reflexivity.
  destruct (init_clients_share_credentials Sample.super_init
              Sample.new_OpenAI Sample.new_AsyncOpenAI Sample.environ
              Sample.config_large Sample.provider_large Hinit)
    as (key & Hne & _ & Hsync & Hasync).
  split; [exact Hinit|]. exists key. auto.
Defined.

Lemma normalized_base_model_spec_witness :
  base_model Sample.config_large = Some "openai/text-embedding-3-large"
  ∧ str_contains "openai/" "openai/text-embedding-3-large" = true
  ∧ ∃ pre m,
      "openai/text-embedding-3-large" = pre +:+ "/" +:+ m
      ∧ str_contains "/" m = false
      ∧ normalized_base_model Sample.config_large = Some m.
Proof.
  split; [reflexivity|]. split; [reflexivity|].
  destruct (normalized_base_model_spec Sample.config_large
              "openai/text-embedding-3-large" eq_refl) as [_ Hcut].
  exact (Hcut eq_refl).
Defined.

Lemma init_openai_prefix_optional_witness :
  str_contains "/" "text-embedding-3-small" = false
  ∧ __init__ Sample.super_init Sample.new_OpenAI Sample.new_AsyncOpenAI
      Sample.environ
      (with_base_model Sample.config_small_512
         (Some ("openai/" +:+ "text-embedding-3-small")))
    = __init__ Sample.super_init Sample.new_OpenAI Sample.new_AsyncOpenAI
      Sample.environ
        (with_base_model Sample.config_small_512
           (Some "text-embedding-3-small")).
Proof.
  split; [reflexivity|].
  apply (init_openai_prefix_optional Sample.super_init Sample.new_OpenAI
              Sample.new_AsyncOpenAI Sample.environ
           Sample.config_small_512 "text-embedding-3-small");
    reflexivity.
Defined.

Lemma get_embedding_kwargs_merge_witness :
  __init__ Sample.super_init Sample.new_OpenAI Sample.new_AsyncOpenAI
      Sample.environ Sample.config_large
    = Returns Sample.provider_large
  ∧ ∃ params,
      _get_embedding_kwargs Sample.provider_large Sample.kwargs_dimensions
        = Returns params
      ∧ dom params = dom Sample.kwargs_dimensions ∪ {["model"; "dimensions"]}
      ∧ params !! "model" = Some (VStr "text-embedding-3-large").
Proof.
  assert (Hinit : __init__ Sample.super_init Sample.new_OpenAI Sample.new_AsyncOpenAI
      Sample.environ
                    Sample.config_large = Returns Sample.provider_large)
    by reflexivity.
  split; [exact Hinit|].
  destruct (get_embedding_kwargs_merge Sample.super_init Sample.new_OpenAI
              Sample.new_AsyncOpenAI Sample.environ
              Sample.config_large Sample.provider_large
              Sample.kwargs_dimensions Hinit)
    as (params & Hparams & Hdom & _ & Hmodel).
  exists params. split; [exact Hparams|]. split; [exact Hdom|].
  apply Hmodel. reflexivity.
Defined.

Lemma get_dimensions_fallback_witness :
  self_base_model SampleCalls.provider_small_unset ≠ "text-embedding-ada-002"
  ∧ truthy_int (self_base_dimension SampleCalls.provider_small_unset) = false
  ∧ (∃ d, py_max [512; 1536] = Some d
       ∧ _get_dimensions SampleCalls.provider_small_unset = Returns (VInt d))
  ∧ _get_dimensions SampleCalls.provider_unknown = Raises (KeyError "gpt-4").
Proof.
  assert (Hsmall : self_base_model SampleCalls.provider_small_unset
                   ≠ "text-embedding-ada-002") by (simpl; congruence).
  assert (Hunknown : self_base_model SampleCalls.provider_unknown
                     ≠ "text-embedding-ada-002") by (simpl; congruence).
  destruct (get_dimensions_fallback SampleCalls.provider_small_unset Hsmall)
    as (_ & Hlast & _).
  destruct (get_dimensions_fallback SampleCalls.provider_unknown Hunknown)
    as (_ & _ & Hkey).
  split; [exact Hsmall|]. split; [reflexivity|]. split.
  - exact (Hlast eq_refl [512; 1536] eq_refl).
  - exact (Hkey eq_refl eq_refl).
Defined.

Lemma escaping_exceptions_witness :
  isinstance_Exception
    (ValueError_from "Error getting embeddings: Request timed out."
       Sample.timeout) = true
  ∧ outcome (_execute_task_sync Z Sample.truncate Sample.create_timeout
               Sample.provider_large Sample.task_plain)
    = Raises (ValueError_from "Error getting embeddings: Request timed out."
                Sample.timeout)
  ∧ ((texts Sample.task_plain = None
      ∧ ValueError_from "Error getting embeddings: Request timed out."
          Sample.timeout = KeyError "texts")
     ∨ _get_embedding_kwargs Sample.provider_large
         (task_kwargs Sample.task_plain)
       = Raises (ValueError_from
                   "Error getting embeddings: Request timed out."
                   Sample.timeout)
     ∨ ∃ msg cause input params,
         ValueError_from "Error getting embeddings: Request timed out."
           Sample.timeout = ValueError_from msg cause
         ∧ isinstance_Exception cause = true
         ∧ Sample.create_timeout (client Sample.provider_large) input params
           = Raises cause).
Proof.
  split; [reflexivity|]. split; [reflexivity|].
  destruct (escaping_exceptions Z Sample.truncate Sample.create_timeout
              Sample.create_timeout Sample.provider_large Sample.task_plain
              (ValueError_from "Error getting embeddings: Request timed out."
                 Sample.timeout) eq_refl) as [_ Hsync].
  exact (Hsync eq_refl).
Defined.

Lemma successful_request_witness :
  sent_texts Sample.truncate ["hello world"] Sample.params_large
    = Some ["hel"]
  ∧ outcome (_execute_task_sync Z Sample.truncate Sample.create
               Sample.provider_large Sample.task_plain)
    = Returns [[3]]
  ∧ outcome (_execute_task Z Sample.truncate Sample.create
               Sample.provider_large Sample.task_plain)
    = Returns [[3]].
Proof.
  split; [reflexivity|].
  destruct (successful_request Z Sample.truncate Sample.create Sample.create
              Sample.provider_large Sample.task_plain ["hello world"] ["hel"]
              Sample.params_large {| data := [ {| embedding := [3] |} ] |}
              eq_refl eq_refl eq_refl) as [Hasync Hsync].
  split.
  - exact (proj1 (Hsync eq_refl)).
  - exact (proj1 (Hasync eq_refl)).
Defined.

Lemma no_model_no_truncation_witness :
  truthy (kwargs_get_model SampleCalls.params_no_model) = false
  ∧ ∃ rest,
      calls (_execute_task_sync Z Sample.truncate Sample.create
               Sample.provider_large SampleCalls.task_no_model)
      = CreateCall Sample.the_client ["hello world"]
          SampleCalls.params_no_model :: rest
      ∧ ∀ ev, ev ∈ rest → is_log_call ev = true.
Proof.
  split; [reflexivity|].
  destruct (no_model_no_truncation Z Sample.truncate Sample.create
              Sample.create Sample.provider_large SampleCalls.task_no_model
              ["hello world"] SampleCalls.params_no_model
              eq_refl eq_refl eq_refl) as [_ Hsync].
  exact Hsync.
Defined.

Lemma truncation_base_exception_ends_run_witness :
  isinstance_Exception Sample.cancelled = false
  ∧ _execute_task_sync Z SampleCalls.truncate_cancelled Sample.create
      Sample.provider_large Sample.task_plain
    = ([TruncateCall ["hello world"] (VStr "text-embedding-3-large")],
       Raises Sample.cancelled).
Proof.
  split; [reflexivity|].
  destruct (truncation_base_exception_ends_run Z SampleCalls.truncate_cancelled
              Sample.create Sample.create Sample.provider_large
              Sample.task_plain ["hello world"] Sample.params_large
              Sample.cancelled eq_refl eq_refl eq_refl eq_refl eq_refl)
    as [_ Hsync].
  exact Hsync.
Defined.

Lemma failures_logged_witness :
  isinstance_Exception Sample.timeout = true
  ∧ isinstance_AuthenticationError Sample.timeout = false
  ∧ ∃ msg,
      last (calls (_execute_task_sync Z Sample.truncate Sample.create_timeout
                     Sample.provider_large Sample.task_plain))
      = Some (LogError msg)
      ∧ outcome (_execute_task_sync Z Sample.truncate Sample.create_timeout
                   Sample.provider_large Sample.task_plain)
        = Raises (ValueError_from msg Sample.timeout).
Proof.
  split; [reflexivity|]. split; [reflexivity|].
  destruct (failures_logged Z Sample.truncate Sample.create_timeout
              Sample.create_timeout Sample.provider_large Sample.task_plain
              ["hello world"] ["hel"] Sample.params_large Sample.timeout
              eq_refl eq_refl eq_refl eq_refl) as [_ Hsync].
  exact (Hsync eq_refl).
Defined.

Lemma rerank_negative_limit_drops_witness :
  -2 < 0
  ∧ rerank Sample.provider_large "query" [1; 2; 3] None (Some (-2)) = [1]
  ∧ rerank Sample.provider_large "query" [1; 2; 3] None (Some (-3)) = [].
Proof.
  assert (H2 : -2 < 0) by lia.
  assert (H3 : -3 < 0) by lia.
  destruct (rerank_negative_limit_drops Sample.provider_large "query"
              [1; 2; 3] None (-2) H2) as (Hdrop & _).
  destruct (rerank_negative_limit_drops Sample.provider_large "query"
              [1; 2; 3] None (-3) H3) as (_ & _ & Hnone).
  split; [exact H2|]. split.
  - rewrite Hdrop. reflexivity.
  - apply Hnone. simpl. lia.
Defined.

Lemma rerank_idempotent_witness :
  0 ≤ default 10 (Some 2)
  ∧ rerank Sample.provider_large "query"
      (rerank Sample.provider_large "query" Sample.eleven None (Some 2))
      None (Some 2)
    = rerank Sample.provider_large "query" Sample.eleven None (Some 2).
Proof.
  assert (H : 0 ≤ default 10 (Some 2)) by (simpl; lia).
  split; [exact H|].
  exact (rerank_idempotent Sample.provider_large "query" Sample.eleven None
           (Some 2) H).
Defined.

Lemma tokenize_string_model_independent_witness :
  is_Some (MODEL_TO_TOKENIZER !! "text-embedding-ada-002")
  ∧ is_Some (MODEL_TO_TOKENIZER !! "text-embedding-3-large")
  ∧ tokenize_string string Sample.get_encoding Sample.encode
      Sample.provider_large "hi" "text-embedding-ada-002"
    = tokenize_string string Sample.get_encoding Sample.encode
        Sample.provider_large "hi" "text-embedding-3-large".
Proof.
  assert (Hada : is_Some (MODEL_TO_TOKENIZER !! "text-embedding-ada-002"))
    by (eexists; reflexivity).
  assert (Hlarge : is_Some (MODEL_TO_TOKENIZER !! "text-embedding-3-large"))
    by (eexists; reflexivity).
  split; [exact Hada|]. split; [exact Hlarge|].
  exact (proj1 (tokenize_string_model_independent string Sample.get_encoding
                  Sample.encode Sample.provider_large "hi"
                  "text-embedding-ada-002" "text-embedding-3-large"
                  Hada Hlarge)).
Defined.

Lemma entry_points_reject_other_stage_witness :
  RERANK ≠ BASE
  ∧ get_embedding Z SampleCalls.backoff_sync Sample.provider_large
      "hello world" (Some RERANK) ∅
    = ([], Raises (ValueError
                     "OpenAIEmbeddingProvider only supports search stage."))
  ∧ async_get_embeddings Z SampleCalls.backoff_async Sample.provider_large
      ["hello world"] (Some RERANK) ∅
    = ([], Raises (ValueError
                     "OpenAIEmbeddingProvider only supports search stage.")).
Proof.
  assert (Hstage : RERANK ≠ BASE) by discriminate.
  destruct (entry_points_reject_other_stage Z SampleCalls.backoff_async
              SampleCalls.backoff_sync Sample.provider_large "hello world"
              ["hello world"] RERANK ∅ Hstage)
    as (_ & Hsync & Hbatch & _).
  split; [exact Hstage|]. split; [exact Hsync|]. exact Hbatch.
Defined.

(** With a single-attempt retry wrapper, embedding one text goes through
    the truncation and one request and gives the first vector. *)
Example get_embedding_single_attempt :
  get_embedding Z SampleCalls.backoff_sync Sample.provider_large
    "hello world" None ∅
  = ([TruncateCall ["hello world"] (VStr "text-embedding-3-large");
      CreateCall Sample.the_client ["hel"] Sample.params_large],
     Returns [3]).
Proof. reflexivity. Qed.
